(** * Bluesky self-follow tool: identity resolution cascade and login flow

    A shallow embedding of [main.py].  Python strings are modelled as Rocq
    strings whose characters are code points below 256; Python values that
    come out of [r.json()] are modelled by [pyval]; the network, the SDK
    client and the terminal are an explicit [World] of oracles, and every
    call to one of them is recorded in a trace of events. *)

From Stdlib Require Import String Ascii List Bool Arith ZArith Lia.
Import ListNotations.
Open Scope string_scope.
Set Warnings "-register-all".

(** ** Python string operations *)

Module PyStr.

(** [s.startswith(p)] *)
Definition startswith (s p : string) : bool := String.prefix p s.

(** [s.endswith(p)]: some tail of [s] is [p]. *)
Fixpoint endswith (s p : string) : bool :=
  (s =? p) ||
  match s with
  | EmptyString => false
  | String _ t => endswith t p
  end.

(** [needle in s] *)
Fixpoint str_in (needle s : string) : bool :=
  String.prefix needle s ||
  match s with
  | EmptyString => false
  | String _ t => str_in needle t
  end.

(** [s.split(c, 1)] for a one-character separator [c]: a list of one or
    two pieces. *)
Fixpoint split_once (c : ascii) (s : string) : list string :=
  match s with
  | EmptyString => [EmptyString]
  | String a t =>
      if Ascii.eqb a c then [EmptyString; t]
      else match split_once c t with
           | x :: rest => String a x :: rest
           | [] => [String a EmptyString]
           end
  end.

(** Strip from the left / from the right every character satisfying [p]. *)
Fixpoint lstrip_by (p : ascii -> bool) (s : string) : string :=
  match s with
  | EmptyString => EmptyString
  | String a t => if p a then lstrip_by p t else s
  end.

Fixpoint rstrip_by (p : ascii -> bool) (s : string) : string :=
  match s with
  | EmptyString => EmptyString
  | String a t =>
      let t' := rstrip_by p t in
      if (t' =? EmptyString) && p a then EmptyString else String a t'
  end.

(** [str.isspace] on code points below 256. *)
Definition isspace (a : ascii) : bool :=
  let n := nat_of_ascii a in
  (((9 <=? n) && (n <=? 13)) || ((28 <=? n) && (n <=? 32))
   || (n =? 133) || (n =? 160))%nat.

(** [s.strip()] *)
Definition strip (s : string) : string := lstrip_by isspace (rstrip_by isspace s).

(** [s.rstrip("/")] *)
Definition rstrip_slash (s : string) : string := rstrip_by (Ascii.eqb "/") s.

(** [s[n:]] *)
Fixpoint drop (n : nat) (s : string) : string :=
  match n, s with
  | O, _ => s
  | S _, EmptyString => EmptyString
  | S n', String _ t => drop n' t
  end.

(** [s[1:-1]] *)
Definition slice_1_m1 (s : string) : string :=
  match s with
  | EmptyString => EmptyString
  | String _ t => substring 0 (String.length t - 1) t
  end.

(** [s.replace(a, b)] for one-character [a] and [b]. *)
Fixpoint replace_char (a b : ascii) (s : string) : string :=
  match s with
  | EmptyString => EmptyString
  | String c t => String (if Ascii.eqb c a then b else c) (replace_char a b t)
  end.

(** [s.lower()] on code points below 256. *)
Definition lower_char (a : ascii) : ascii :=
  let n := nat_of_ascii a in
  if (((65 <=? n) && (n <=? 90))
      || ((192 <=? n) && (n <=? 222) && negb (n =? 215)))%nat
  then ascii_of_nat (n + 32) else a.

Fixpoint lower (s : string) : string :=
  match s with
  | EmptyString => EmptyString
  | String a t => String (lower_char a) (lower t)
  end.

(** The one-character string holding a double quote. *)
Definition dquote : string := String (ascii_of_nat 34) EmptyString.

End PyStr.
Import PyStr.

(** ** Python values and exceptions *)

(** Values produced by [r.json()] (and the SDK's profile dictionary).  A
    float is observed by this program only through its truthiness, so it is
    represented by whether it is nonzero.  A dict is an association list
    read by its first matching key. *)
Inductive pyval : Type :=
| PNone
| PBool (b : bool)
| PInt (n : Z)
| PFloat (nonzero : bool)
| PStr (s : string)
| PList (l : list pyval)
| PDict (d : list (string * pyval)).

Inductive exn : Type :=
| IndexError
| AttributeError
| TypeError
| EOFError
| JSONDecodeError
| OtherError (msg : string).

(** [str(e)] *)
Definition exn_str (e : exn) : string :=
  match e with
  | IndexError => "list index out of range"
  | AttributeError => "object has no attribute"
  | TypeError => "object is not iterable"
  | EOFError => "EOF when reading a line"
  | JSONDecodeError => "Expecting value"
  | OtherError msg => msg
  end.

Inductive result (A : Type) : Type :=
| Ok (a : A)
| Raise (e : exn).
Arguments Ok {A} a.
Arguments Raise {A} e.

Module Py.

(** Truth value of a Python object. *)
Definition truthy (v : pyval) : bool :=
  match v with
  | PNone => false
  | PBool b => b
  | PInt n => negb (n =? 0)%Z
  | PFloat nz => nz
  | PStr s => negb (s =? EmptyString)
  | PList l => match l with [] => false | _ => true end
  | PDict d => match d with [] => false | _ => true end
  end.

(** [a or b] (both already evaluated). *)
Definition or_ (a b : pyval) : pyval := if truthy a then a else b.

Fixpoint assoc (d : list (string * pyval)) (k : string) : option pyval :=
  match d with
  | [] => None
  | (k', v) :: rest => if k' =? k then Some v else assoc rest k
  end.

(** [v.get(k, dflt)]; only a dict has [get]. *)
Definition get_default (v : pyval) (k : string) (dflt : pyval) : result pyval :=
  match v with
  | PDict d => Ok (match assoc d k with Some x => x | None => dflt end)
  | _ => Raise AttributeError
  end.

(** [v.get(k)] *)
Definition get (v : pyval) (k : string) : result pyval := get_default v k PNone.

(** [l[i]] on a list. *)
Definition index {A} (l : list A) (i : nat) : result A :=
  match nth_error l i with
  | Some x => Ok x
  | None => Raise IndexError
  end.

(** The items [for s in v] goes through. *)
Definition iter (v : pyval) : result (list pyval) :=
  match v with
  | PList l => Ok l
  | PDict d => Ok (map (fun kv => PStr (fst kv)) d)
  | PStr s => Ok (map (fun c => PStr (String c EmptyString)) (list_ascii_of_string s))
  | _ => Raise TypeError
  end.

(** Truth value of an [Optional[str]]. *)
Definition truthy_opt (o : option string) : bool :=
  match o with
  | Some s => negb (s =? EmptyString)
  | None => false
  end.

End Py.

(** ** Pure helpers of [main.py] *)

Definition strip_at (h : string) : string :=
  if startswith h "@" then drop 1 h else h.

Definition maybe_assume_bsky (handle : string) : string :=
  if startswith handle "did:" then handle
  else if negb (str_in "." handle) then handle ++ ".bsky.social"
  else handle.

(** ** The world: network, SDK client and terminal *)

(** What [requests.get] hands back: [json] is the outcome of [r.json()],
    which raises on an unparseable body. *)
Record response : Type := {
  status_code : nat;
  text : string;
  json : result pyval
}.

(** What a successful [client.login] leaves behind: the value of
    [getattr(client.me, "did", None)] and the profile after [try_login]'s
    coercion to a dict. *)
Record login_ok : Type := {
  lo_me_did : pyval;
  lo_profile : pyval
}.

Inductive event : Type :=
| EvDnsQuery (name : string) (lifetime : nat)
| EvHttpGet (url : string) (params : list (string * string)) (timeout : nat)
| EvLogin (base : option string) (identifier password : string)
| EvInput (prompt : string)
| EvGetpass (prompt : string)
| EvCreateRecord (base : option string) (payload : pyval)
| EvLogout (base : option string).

(** [dns_module] tells whether the optional [dns.resolver] import
    succeeded ([dns is not None]).  Every oracle sees the events so far, so
    the same request may be answered differently at different times.
    [Raise] stands for the call raising (timeout, connection error, SDK
    error, ...).  [dns_resolve] gives the [to_text()] of each answer. *)
Record World : Type := {
  dns_module : bool;
  dns_resolve : list event -> string -> result (list string);
  requests_get : list event -> string -> list (string * string) -> result response;
  client_login : list event -> option string -> string -> string -> result login_ok;
  create_record : list event -> option string -> pyval -> result unit;
  client_logout : list event -> option string -> result unit;
  now_iso : list event -> string
}.

(** The lines the user will type, and the events so far. *)
Record state : Type := {
  stdin : list string;
  trace : list event
}.

Definition log (e : event) (st : state) : state :=
  {| stdin := stdin st; trace := trace st ++ [e] |}.

(** ** A state-and-exception monad; the trace survives a raise. *)

Definition M (A : Type) : Type := state -> result A * state.

Definition ret {A} (a : A) : M A := fun st => (Ok a, st).

Definition bind {A B} (m : M A) (k : A -> M B) : M B :=
  fun st =>
    match m st with
    | (Ok a, st') => k a st'
    | (Raise e, st') => (Raise e, st')
    end.

Definition raise {A} (e : exn) : M A := fun st => (Raise e, st).

(** [try: m  except Exception as e: h e] *)
Definition try_except {A} (m : M A) (h : exn -> M A) : M A :=
  fun st =>
    match m st with
    | (Ok a, st') => (Ok a, st')
    | (Raise e, st') => h e st'
    end.

(** Lift a pure computation that may raise. *)
Definition lift {A} (r : result A) : M A := fun st => (r, st).

Declare Scope py_scope.
Delimit Scope py_scope with py.
Notation "x <- m ;; k" := (bind m (fun x => k))
  (at level 61, m at next level, right associativity) : py_scope.
Notation "m ;;; k" := (bind m (fun _ => k))
  (at level 61, right associativity) : py_scope.
Open Scope py_scope.

(** Sequencing of pure computations that may raise. *)
Definition rbind {A B} (r : result A) (k : A -> result B) : result B :=
  match r with
  | Ok a => k a
  | Raise e => Raise e
  end.

(** ** Identity resolution *)

(** The name queried by [resolve_handle_via_dns]: the part after the first
    label, the whole handle when the extraction raises.
    [handle.count(".") >= 1] is [str_in "." handle]. *)
Definition dns_query_name (handle : string) : string :=
  match (if str_in "." handle && negb (startswith handle "did:")
         then Py.index (split_once "." (strip_at handle)) 1
         else Ok (strip_at handle)) with
  | Ok name => name
  | Raise _ => strip_at handle
  end.

(** The [for ans in answers] loop of [resolve_handle_via_dns]. *)
Fixpoint dns_first_did (answers : list string) : result pyval :=
  match answers with
  | [] => Ok PNone
  | ans :: rest =>
      let text := strip ans in
      let text := if startswith text dquote && endswith text dquote
                  then slice_1_m1 text else text in
      if startswith text "did=" then
        rbind (Py.index (split_once "=" text) 1) (fun v => Ok (PStr (strip v)))
      else dns_first_did rest
  end.

(** The domain piece computed by [resolve_handle_via_well_known]. *)
Definition well_known_domain (raw : string) : result string :=
  if str_in "/" raw then
    if str_in "." raw then
      rbind (Py.index (split_once "/" raw) 0)
            (fun x => Py.index (split_once "." x) 1)
    else Ok raw
  else
    if str_in "." raw then Py.index (split_once "." raw) 1 else Ok raw.

Definition well_known_url (domain : string) : string :=
  "https://" ++ domain ++ "/.well-known/atproto-did".

Definition public_resolver_url : string :=
  "https://bsky.social/xrpc/com.atproto.identity.resolveHandle".

Section Program.

Variable w : World.

(** [dns.resolver.resolve(name, "TXT", lifetime=...)] *)
Definition dns_resolver_resolve (name : string) (lifetime : nat) : M (list string) :=
  fun st => (dns_resolve w (trace st) name, log (EvDnsQuery name lifetime) st).

(** [requests.get(url, params=..., timeout=...)] *)
Definition requests_get_ (url : string) (params : list (string * string))
    (timeout : nat) : M response :=
  fun st => (requests_get w (trace st) url params, log (EvHttpGet url params timeout) st).

Definition resolve_handle_via_dns (handle : string) : M pyval :=
  if negb (dns_module w) then ret PNone
  else
    let query := "_atproto." ++ dns_query_name handle in
    r <- try_except (answers <- dns_resolver_resolve query 3 ;; ret (Some answers))
                    (fun _ => ret None) ;;
    match r with
    | None => ret PNone
    | Some answers => lift (dns_first_did answers)
    end.

Definition resolve_handle_via_well_known (handle : string) : M pyval :=
  let raw := strip_at handle in
  domain <- lift (well_known_domain raw) ;;
  if domain =? EmptyString then ret PNone
  else
    let url := well_known_url domain in
    try_except
      (r <- requests_get_ url [] 4 ;;
       if (status_code r =? 200)%nat then ret (PStr (strip (text r)))
       else ret PNone)
      (fun _ => ret PNone).

Definition resolve_handle_public_api (handle : string) : M pyval :=
  try_except
    (let url := public_resolver_url in
     let params := [("handle", strip_at handle)] in
     r <- requests_get_ url params 4 ;;
     if (status_code r =? 200)%nat then
       data <- lift (json r) ;;
       lift (Py.get data "did")
     else ret PNone)
    (fun _ => ret PNone).

Definition resolve_handle_to_did (handle : string) : M pyval :=
  let handle := strip_at handle in
  did <- (if dns_module w
          then try_except (resolve_handle_via_dns handle) (fun _ => ret PNone)
          else ret PNone) ;;
  if Py.truthy did then ret did
  else
    did <- resolve_handle_via_well_known handle ;;
    if Py.truthy did then ret did
    else resolve_handle_public_api handle.

Definition fetch_did_document (did : string) : M pyval :=
  if startswith did "did:web:" then
    let suffix := drop (String.length "did:web:") did in
    let domain := replace_char ":" "/" suffix in
    let url := "https://" ++ domain ++ "/.well-known/did.json" in
    try_except
      (r <- requests_get_ url [] 5 ;;
       if (status_code r =? 200)%nat then lift (json r) else ret PNone)
      (fun _ => ret PNone)
  else if startswith did "did:plc:" || startswith did "did:plc" then
    try_except
      (let url := "https://plc.directory/" ++ did in
       r <- requests_get_ url [] 6 ;;
       if (status_code r =? 200)%nat then lift (json r) else ret PNone)
      (fun _ => ret PNone)
  else
    try_except
      (let url := "https://uniresolver.io/1.0/identifiers/" ++ did in
       r <- requests_get_ url [] 6 ;;
       if (status_code r =? 200)%nat then
         payload <- lift (json r) ;;
         match payload with
         | PDict d =>
             match Py.assoc d "didDocument" with
             | Some doc => ret doc
             | None => ret PNone
             end
         | _ => ret PNone
         end
       else ret PNone)
      (fun _ => ret PNone).

(** ** Locating the PDS endpoint in a DID document *)

(** [d.get(k, dflt)] on a dict. *)
Definition dict_get (d : list (string * pyval)) (k : string) (dflt : pyval) : pyval :=
  match Py.assoc d k with
  | Some v => v
  | None => dflt
  end.

(** The test on a descriptor's id; [sid.endswith] exists only on a str. *)
Definition sid_matches (sid : pyval) (did : string) : result bool :=
  match sid with
  | PStr s => Ok (endswith s "#atproto_pds" || (s =? "#atproto_pds")
                  || (s =? did ++ "#atproto_pds"))
  | _ => Raise AttributeError
  end.

(** First loop: [Some ep] when the loop returns [ep], [None] when it runs
    to its end. *)
Fixpoint scan_by_id (svc : list pyval) (did : string) : result (option string) :=
  match svc with
  | [] => Ok None
  | s :: rest =>
      match s with
      | PDict d =>
          let sid := dict_get d "id" (PStr EmptyString) in
          rbind (sid_matches sid did) (fun m =>
            if m then
              let ep := Py.or_ (Py.or_ (dict_get d "serviceEndpoint" PNone)
                                       (dict_get d "serviceEndpointURL" PNone))
                               (dict_get d "serviceEndpoint" PNone) in
              match ep with
              | PStr e =>
                  if negb (e =? EmptyString) then Ok (Some (rstrip_slash e))
                  else scan_by_id rest did
              | _ => scan_by_id rest did
              end
            else scan_by_id rest did)
      | _ => Raise AttributeError
      end
  end.

(** Second loop: the first service with an endpoint starting with "http". *)
Fixpoint scan_http (svc : list pyval) : result (option string) :=
  match svc with
  | [] => Ok None
  | s :: rest =>
      match s with
      | PDict d =>
          let ep := Py.or_ (dict_get d "serviceEndpoint" PNone)
                           (dict_get d "serviceEndpointURL" PNone) in
          match ep with
          | PStr e =>
              if startswith e "http" then Ok (Some (rstrip_slash e))
              else scan_http rest
          | _ => scan_http rest
          end
      | _ => Raise AttributeError
      end
  end.

Definition extract_pds_from_did_doc (did_doc : pyval) (did : string)
    : result (option string) :=
  rbind (Py.get did_doc "service") (fun s1 =>
  rbind (if Py.truthy s1 then Ok s1
         else rbind (Py.get did_doc "services")
                    (fun s2 => Ok (Py.or_ s2 (PList [])))) (fun svc =>
  if negb (Py.truthy svc) then Ok None
  else
    rbind (Py.iter svc) (fun items =>
    rbind (scan_by_id items did) (fun r =>
    match r with
    | Some ep => Ok (Some ep)
    | None => scan_http items
    end)))).

(** ** Login *)

(** An SDK client: the base URL it was built with ([None] for the default
    [Client()]) and [getattr(client.me, "did", None)]. *)
Record Client : Type := {
  base_url : option string;
  me_did : pyval
}.

(** [Client(base).login(identifier, app_password)] *)
Definition sdk_login (base : option string) (identifier app_password : string)
    : M login_ok :=
  fun st => (client_login w (trace st) base identifier app_password,
             log (EvLogin base identifier app_password) st).

(** The base URL [try_login] builds a client with. *)
Definition xrpc_base (client_base_url : string) : string :=
  if negb (endswith client_base_url "/xrpc")
  then rstrip_slash client_base_url ++ "/xrpc"
  else client_base_url.

Definition try_login (client_base_url : option string)
    (identifier app_password : string) : M (option Client * pyval) :=
  try_except
    (let base := match client_base_url with
                 | Some b => if negb (b =? EmptyString) then Some (xrpc_base b) else None
                 | None => None
                 end in
     lo <- sdk_login base identifier app_password ;;
     ret (Some {| base_url := base; me_did := lo_me_did lo |}, lo_profile lo))
    (fun e => ret (None, PDict [("error", PStr (exn_str e))])).

(** [profile_or_err.get("did") if isinstance(profile_or_err, dict) else None] *)
Definition profile_did (profile_or_err : pyval) : pyval :=
  match profile_or_err with
  | PDict d => dict_get d "did" PNone
  | _ => PNone
  end.

(** [getpass.getpass(prompt)] and [input(prompt)]: the next typed line,
    [EOFError] when there is none. *)
Definition getpass (prompt : string) : M string :=
  fun st =>
    match stdin st with
    | [] => (Raise EOFError, log (EvGetpass prompt) st)
    | x :: rest => (Ok x, {| stdin := rest; trace := trace st ++ [EvGetpass prompt] |})
    end.

Definition input (prompt : string) : M string :=
  fun st =>
    match stdin st with
    | [] => (Raise EOFError, log (EvInput prompt) st)
    | x :: rest => (Ok x, {| stdin := rest; trace := trace st ++ [EvInput prompt] |})
    end.

Definition password_prompt : string := "Enter your Bluesky app password: ".

(** The step of [login_flow] that expands a bare username. *)
Definition assume_bsky_if_bare (input_val : string) : string :=
  if negb (startswith input_val "did:") && negb (str_in "." input_val)
  then maybe_assume_bsky input_val else input_val.

(** The value [login_flow] gives [identifier_for_login] (and [input_val]). *)
Definition identifier_for_login (raw_input_handle : string) : string :=
  assume_bsky_if_bare (strip raw_input_handle).

(** Steps 2 to 4 of [login_flow], after the quick login failed. *)
Definition login_via_pds (input_val identifier_for_login app_password : string)
    : M (option (Client * pyval)) :=
  did <- (if startswith input_val "did:" then ret (PStr input_val)
          else resolve_handle_to_did input_val) ;;
  if negb (Py.truthy did) then ret None
  else
    match did with
    | PStr d =>
        did_doc <- fetch_did_document d ;;
        if negb (Py.truthy did_doc) then ret None
        else
          pds_host <- lift (extract_pds_from_did_doc did_doc d) ;;
          if negb (Py.truthy_opt pds_host) then ret None
          else
            cp <- try_login pds_host identifier_for_login app_password ;;
            match fst cp with
            | Some client => ret (Some (client, Py.or_ (me_did client) did))
            | None => ret None
            end
    | _ => raise AttributeError
    end.

Definition login_flow (raw_input_handle : string) : M (option (Client * pyval)) :=
  let input_val := strip raw_input_handle in
  if input_val =? EmptyString then ret None
  else
    let input_val := assume_bsky_if_bare input_val in
    let identifier_for_login := input_val in
    pw <- getpass password_prompt ;;
    let app_password := strip pw in
    if app_password =? EmptyString then ret None
    else
      cp <- try_login None identifier_for_login app_password ;;
      let profile_or_err := snd cp in
      match fst cp with
      | Some client =>
          let user_did := Py.or_ (me_did client) (profile_did profile_or_err) in
          let user_did := if negb (Py.truthy user_did)
                          then profile_did profile_or_err else user_did in
          ret (Some (client, Py.or_ user_did (PStr identifier_for_login)))
      | None => login_via_pds input_val identifier_for_login app_password
      end.

(** ** Writing the follow record and the interactive loop *)

(** [client.com.atproto.repo.create_record(payload)] *)
Definition sdk_create_record (client : Client) (payload : pyval) : M unit :=
  fun st => (create_record w (trace st) (base_url client) payload,
             log (EvCreateRecord (base_url client) payload) st).

(** [client.logout()] *)
Definition sdk_logout (client : Client) : M unit :=
  fun st => (client_logout w (trace st) (base_url client),
             log (EvLogout (base_url client)) st).

Definition follow_self (client : Client) (user_did : pyval) : M bool :=
  fun st =>
    let now := now_iso w (trace st) in
    let payload :=
      PDict [("repo", user_did);
             ("collection", PStr "app.bsky.graph.follow");
             ("record", PDict [("subject", user_did); ("createdAt", PStr now)])] in
    try_except (sdk_create_record client payload ;;; ret true)
               (fun _ => ret false) st.

(** [confirm]: its [while True] loop reads one line per round, so it is a
    recursion on the lines still to come. *)
Fixpoint confirm_loop (prompt : string) (lines : list string) (tr : list event)
    : result bool * state :=
  let tr' := (tr ++ [EvInput (prompt ++ " (y/N): ")])%list in
  match lines with
  | [] => (Raise EOFError, {| stdin := []; trace := tr' |})
  | x :: rest =>
      let r := lower (strip x) in
      if (r =? "y") || (r =? "yes") then (Ok true, {| stdin := rest; trace := tr' |})
      else if (r =? "n") || (r =? "no") || (r =? EmptyString)
           then (Ok false, {| stdin := rest; trace := tr' |})
           else confirm_loop prompt rest tr'
  end.

Definition confirm (prompt : string) : M bool :=
  fun st => confirm_loop prompt (stdin st) (trace st).

Definition handle_prompt : string :=
  "Enter your Bluesky handle (e.g., username.bsky.social) or DID (did:...): ".

Definition try_another_prompt : string := "Try another handle? (y/N): ".

(** What one round of [main]'s [while True] ends with. *)
Inductive loop_step : Type := Continue | Break.

Definition logout_quietly (client : Client) : M unit :=
  try_except (sdk_logout client) (fun _ => ret tt).

(** One round of the loop of [main]. *)
Definition main_round : M loop_step :=
  h <- input handle_prompt ;;
  let handle := strip h in
  if handle =? EmptyString then ret Continue
  else
    login_result <- login_flow handle ;;
    match login_result with
    | None =>
        a <- input try_another_prompt ;;
        let try_again := lower (strip a) in
        if (try_again =? "y") || (try_again =? "yes") then ret Continue
        else ret Break
    | Some (client, user_did) =>
        go <- confirm "Are you sure you want to proceed" ;;
        if negb go then
          logout_quietly client ;;;
          again <- confirm "Try another account?" ;;
          ret (if again then Continue else Break)
        else
          follow_self client user_did ;;;
          logout_quietly client ;;;
          again <- confirm "Follow another account?" ;;
          ret (if again then Continue else Break)
    end.

(** The loop of [main], at most [fuel] rounds; [None] when the rounds
    allowed did not reach the end of the loop. *)
Fixpoint main_loop (fuel : nat) (st : state) : option (result unit * state) :=
  match fuel with
  | O => None
  | S fuel' =>
      match main_round st with
      | (Ok Continue, st') => main_loop fuel' st'
      | (Ok Break, st') => Some (Ok tt, st')
      | (Raise e, st') => Some (Raise e, st')
      end
  end.

(** The script as run: exit status 0 after [main], 1 on an exception. *)
Definition program (fuel : nat) (st : state) : option (nat * state) :=
  match main_loop fuel st with
  | None => None
  | Some (Ok _, st') => Some (0, st')
  | Some (Raise _, st') => Some (1, st')
  end.

(** ** Vocabulary for the statements about runs *)

(** How the run got its DID: the input itself when it is one, the cascade
    otherwise. *)
Definition resolves_did (input_val : string) (st1 : state) (d : string) (st2 : state)
    : Prop :=
  if startswith input_val "did:" then input_val = d /\ st2 = st1
  else resolve_handle_to_did input_val st1 = (Ok (PStr d), st2).

(** Resolution produced a DID, a DID document and a PDS endpoint. *)
Definition discovers_pds (input_val : string) (st1 : state) (d pds : string)
    (st3 : state) : Prop :=
  exists st2 doc,
    resolves_did input_val st1 d st2 /\ d <> EmptyString /\
    fetch_did_document d st2 = (Ok doc, st3) /\ Py.truthy doc = true /\
    extract_pds_from_did_doc doc d = Ok (Some pds) /\ pds <> EmptyString.

End Program.

(** The state after some more events. *)
Definition extend (st : state) (delta : list event) : state :=
  {| stdin := stdin st; trace := trace st ++ delta |}.

Definition is_login (e : event) : bool :=
  match e with
  | EvLogin _ _ _ => true
  | _ => false
  end.

(** DNS queries and HTTP requests. *)
Definition is_lookup (e : event) : bool :=
  match e with
  | EvDnsQuery _ _ | EvHttpGet _ _ _ => true
  | _ => false
  end.

(** The authentication attempts of a trace, in order. *)
Definition logins (tr : list event) : list event := filter is_login tr.

(** The base URL [try_login] builds its client with. *)
Definition login_target (client_base_url : option string) : option string :=
  match client_base_url with
  | Some b => if negb (b =? EmptyString) then Some (xrpc_base b) else None
  | None => None
  end.

(** The three requests of the cascade. *)
Definition dns_request (handle : string) : event :=
  EvDnsQuery ("_atproto." ++ dns_query_name handle) 3.

Definition well_known_request (domain : string) : event :=
  EvHttpGet (well_known_url domain) [] 4.

Definition public_request (handle : string) : event :=
  EvHttpGet public_resolver_url [("handle", strip_at handle)] 4.

(** ** Vocabulary for the statements about the PDS endpoint *)

(** The service descriptors of a document: the list under "service", else
    the one under "services", else none. *)
Definition service_list (doc : pyval) : list pyval :=
  match doc with
  | PDict d =>
      match Py.or_ (Py.or_ (dict_get d "service" PNone) (dict_get d "services" PNone))
                   (PList []) with
      | PList l => l
      | _ => []
      end
  | _ => []
  end.

(** A descriptor whose id is the PDS marker in one of the three accepted
    forms. *)
Definition id_is_pds (did : string) (s : pyval) : bool :=
  match s with
  | PDict d =>
      match dict_get d "id" (PStr EmptyString) with
      | PStr sid => endswith sid "#atproto_pds" || (sid =? "#atproto_pds")
                    || (sid =? did ++ "#atproto_pds")
      | _ => false
      end
  | _ => false
  end.

(** The endpoint of a descriptor when it is a non-empty string, read from
    "serviceEndpoint" or else "serviceEndpointURL". *)
Definition endpoint_string (s : pyval) : option string :=
  match s with
  | PDict d =>
      match Py.or_ (dict_get d "serviceEndpoint" PNone)
                   (dict_get d "serviceEndpointURL" PNone) with
      | PStr e => if e =? EmptyString then None else Some e
      | _ => None
      end
  | _ => None
  end.

(** The endpoint of a descriptor that matches by id. *)
Definition pds_endpoint (did : string) (s : pyval) : option string :=
  if id_is_pds did s then endpoint_string s else None.

(** The endpoint of a descriptor when it starts with "http". *)
Definition http_endpoint (s : pyval) : option string :=
  match endpoint_string s with
  | Some e => if startswith e "http" then Some e else None
  | None => None
  end.

Fixpoint first_some {A B : Type} (f : A -> option B) (l : list A) : option B :=
  match l with
  | [] => None
  | x :: rest => match f x with Some b => Some b | None => first_some f rest end
  end.

(** A document as the data model has it: a dict whose service list is a
    list of dicts, each with a string id (or none). *)
Definition wf_descriptor (s : pyval) : bool :=
  match s with
  | PDict d => match dict_get d "id" (PStr EmptyString) with
               | PStr _ => true
               | _ => false
               end
  | _ => false
  end.

Definition wf_did_doc (doc : pyval) : bool :=
  match doc with
  | PDict d =>
      match Py.or_ (Py.or_ (dict_get d "service" PNone) (dict_get d "services" PNone))
                   (PList []) with
      | PList l => forallb wf_descriptor l
      | _ => false
      end
  | _ => false
  end.

(** The document of the spec's example. *)
Definition example_did_doc : pyval :=
  PDict [("service",
          PList [PDict [("id", PStr "did:plc:abc#atproto_pds");
                        ("serviceEndpoint", PStr "https://pds.example/")]])].

(** ** Example worlds and runs *)

(** Nothing answers: every lookup and every login raises. *)
Definition offline_world : World := {|
  dns_module := true;
  dns_resolve := fun _ _ => Raise (OtherError "no answer");
  requests_get := fun _ _ _ => Raise (OtherError "connection refused");
  client_login := fun _ _ _ _ => Raise (OtherError "connection refused");
  create_record := fun _ _ _ => Raise (OtherError "connection refused");
  client_logout := fun _ _ => Raise (OtherError "connection refused");
  now_iso := fun _ => "2024-01-01T00:00:00+00:00"
|}.

(** The spec's second scenario, with the PDS endpoint a parameter: the
    default service rejects the login, DNS has no record, the handle's
    domain serves "did:plc:xyz", the PLC directory serves a document with
    one PDS descriptor, and the PDS accepts the login without reporting a
    DID of its own. *)
Definition scenario_world (pds_endpoint_url : string) : World := {|
  dns_module := true;
  dns_resolve := fun _ _ => Raise (OtherError "NXDOMAIN");
  requests_get := fun _ url _ =>
    if url =? "https://example.com/.well-known/atproto-did" then
      Ok {| status_code := 200; text := "did:plc:xyz"; json := Raise JSONDecodeError |}
    else if url =? "https://plc.directory/did:plc:xyz" then
      Ok {| status_code := 200; text := EmptyString;
            json := Ok (PDict [("service",
                      PList [PDict [("id", PStr "did:plc:xyz#atproto_pds");
                                    ("serviceEndpoint", PStr pds_endpoint_url)]])]) |}
    else Raise (OtherError "connection refused");
  client_login := fun _ base _ _ =>
    match base with
    | None => Raise (OtherError "401 Unauthorized")
    | Some _ => Ok {| lo_me_did := PNone; lo_profile := PNone |}
    end;
  create_record := fun _ _ _ => Ok tt;
  client_logout := fun _ _ => Ok tt;
  now_iso := fun _ => "2024-01-01T00:00:00+00:00"
|}.

(** A run that starts with the given lines still to be typed. *)
Definition typing (lines : list string) : state := {| stdin := lines; trace := [] |}.

(** ** Two statements of the spec, to be tested against the code *)

(** "The discovered-PDS login attempt is always made against the endpoint
    with /xrpc appended, never against the bare endpoint." *)
Definition pds_login_appends_xrpc (w : World) (raw : string) (st : state) : Prop :=
  forall d pds st1 st3 target id pw,
    discovers_pds w (identifier_for_login raw) st1 d pds st3 ->
    In (EvLogin (Some target) id pw) (trace (snd (login_flow w raw st))) ->
    target = pds ++ "/xrpc".

(** "After an empty password the program asks for the password again": the
    run that types a handle and then an empty password has a second password
    prompt right after the first. *)
Definition empty_password_reprompts (w : World) (fuel : nat) (handle : string)
    (rest : list string) : Prop :=
  forall code st',
    program w fuel (typing (handle :: EmptyString :: rest)) = Some (code, st') ->
    exists more,
      trace st' = ([EvInput handle_prompt; EvGetpass password_prompt;
                    EvGetpass password_prompt] ++ more)%list.

(** ** Vocabulary for the statements about the record and the prompts *)

(** The payload [follow_self] builds. *)
Definition follow_payload (user_did : pyval) (now : string) : pyval :=
  PDict [("repo", user_did);
         ("collection", PStr "app.bsky.graph.follow");
         ("record", PDict [("subject", user_did); ("createdAt", PStr now)])].

(** The answers [confirm] takes for yes, and for no. *)
Definition answer_yes (line : string) : bool :=
  (lower (strip line) =? "y") || (lower (strip line) =? "yes").

Definition answer_no (line : string) : bool :=
  (lower (strip line) =? "n") || (lower (strip line) =? "no")
  || (lower (strip line) =? EmptyString).

(** The prompt [confirm] shows. *)
Definition confirm_prompt (prompt : string) : event :=
  EvInput (prompt ++ " (y/N): ").

(** A world without the optional DNS module, where nothing answers. *)
Definition no_dns_world : World := {|
  dns_module := false;
  dns_resolve := fun _ _ => Raise (OtherError "no answer");
  requests_get := fun _ _ _ => Raise (OtherError "connection refused");
  client_login := fun _ _ _ _ => Raise (OtherError "connection refused");
  create_record := fun _ _ _ => Raise (OtherError "connection refused");
  client_logout := fun _ _ => Raise (OtherError "connection refused");
  now_iso := fun _ => "2024-01-01T00:00:00+00:00"
|}.

(** A world whose default service accepts every login and reports
    "did:plc:alice" for the account. *)
Definition accepting_world : World := {|
  dns_module := true;
  dns_resolve := fun _ _ => Raise (OtherError "no answer");
  requests_get := fun _ _ _ => Raise (OtherError "connection refused");
  client_login := fun _ _ _ _ =>
    Ok {| lo_me_did := PStr "did:plc:alice";
          lo_profile := PDict [("did", PStr "did:plc:alice")] |};
  create_record := fun _ _ _ => Ok tt;
  client_logout := fun _ _ => Ok tt;
  now_iso := fun _ => "2024-01-01T00:00:00+00:00"
|}.

(** A world where every HTTP request is answered with status 200: the
    public resolver with the JSON body [resolver_body], any other URL with
    an empty text and the JSON body [document_body].  DNS has no answer and
    no login is accepted. *)
Definition replying_world (resolver_body document_body : pyval) : World := {|
  dns_module := true;
  dns_resolve := fun _ _ => Raise (OtherError "NXDOMAIN");
  requests_get := fun _ url _ =>
    if url =? public_resolver_url then
      Ok {| status_code := 200; text := EmptyString; json := Ok resolver_body |}
    else
      Ok {| status_code := 200; text := EmptyString; json := Ok document_body |};
  client_login := fun _ _ _ _ => Raise (OtherError "401 Unauthorized");
  create_record := fun _ _ _ => Ok tt;
  client_logout := fun _ _ => Ok tt;
  now_iso := fun _ => "2024-01-01T00:00:00+00:00"
|}.

(** [st1] is the state of [login_flow] after the password was read and the
    login against the default service failed. *)
Definition after_default_failure (w : World) (raw : string) (st st1 : state) : Prop :=
  exists line rest e,
    strip raw <> EmptyString
    /\ stdin st = line :: rest
    /\ strip line <> EmptyString
    /\ client_login w (trace st ++ [EvGetpass password_prompt]) None
         (identifier_for_login raw) (strip line) = Raise e
    /\ st1 = {| stdin := rest;
                trace := trace st ++ [EvGetpass password_prompt;
                                      EvLogin None (identifier_for_login raw)
                                        (strip line)] |}.

(** * Properties *)

(** ** Facts about the string operations *)

Section StringFacts.

Lemma endswith_refl (s : string) : endswith s s = true.
Proof.
  destruct s; simpl; [reflexivity|].
  now rewrite Ascii.eqb_refl, String.eqb_refl.
Qed.

Lemma endswith_app (a p : string) : endswith (a ++ p) p = true.
Proof.
  induction a as [|c a IH]; simpl.
  - apply endswith_refl.
  - rewrite IH. apply orb_true_r.
Qed.

Lemma endswith_cons (c : ascii) (s p : string) :
  endswith (String c s) p = (String c s =? p) || endswith s p.
Proof. reflexivity. Qed.

Lemma endswith_inv (s p : string) :
  endswith s p = true -> exists a, s = a ++ p.
Proof.
  induction s as [|c s IH]; intros H.
  - destruct p; [now exists EmptyString | discriminate H].
  - rewrite endswith_cons in H. apply orb_true_iff in H as [H|H].
    + apply String.eqb_eq in H. subst p. now exists EmptyString.
    + destruct (IH H) as [a ->]. now exists (String c a).
Qed.

Lemma str_in_app_r (n a b : string) :
  str_in n b = true -> str_in n (a ++ b) = true.
Proof.
  intros H. induction a as [|c a IH]; simpl; [exact H|].
  rewrite IH. apply orb_true_r.
Qed.

Lemma rstrip_by_cons (p : ascii -> bool) (c : ascii) (s : string) :
  rstrip_by p (String c s) =
  if (rstrip_by p s =? EmptyString) && p c then EmptyString
  else String c (rstrip_by p s).
Proof. reflexivity. Qed.

Lemma eqb_cons_empty (c d : ascii) (s : string) :
  (String c s =? String d EmptyString) = Ascii.eqb c d && (s =? EmptyString).
Proof.
  destruct (Ascii.eqb_spec c d) as [->|Hn], (String.eqb_spec s EmptyString) as [->|Hs];
    cbn [andb].
  - apply String.eqb_refl.
  - apply String.eqb_neq. intros [= E]. now apply Hs.
  - apply String.eqb_neq. intros [= E]. now apply Hn.
  - apply String.eqb_neq. intros [= E]. now apply Hn.
Qed.

(** [rstrip_by p] only removes characters satisfying [p], and only at the
    end. *)
Lemma rstrip_by_removed (p : ascii -> bool) (s : string) :
  exists t, s = rstrip_by p s ++ t
            /\ Forall (fun c => p c = true) (list_ascii_of_string t).
Proof.
  induction s as [|c s (t & Hs & Ht)].
  - exists EmptyString. split; [reflexivity | constructor].
  - rewrite rstrip_by_cons.
    destruct (String.eqb_spec (rstrip_by p s) EmptyString) as [E|E]; cbn [andb].
    + rewrite E in Hs. cbn [append] in Hs. subst t.
      destruct (p c) eqn:Ep.
      * exists (String c s). split; [reflexivity|].
        cbn [list_ascii_of_string]. now constructor.
      * exists s. split; [|exact Ht]. cbn [append]. now rewrite E.
    + exists t. split; [|exact Ht]. cbn [append]. now rewrite <- Hs.
Qed.

(** After [rstrip("/")] no slash is left at the end. *)
Lemma rstrip_slash_no_trailing (s : string) :
  endswith (rstrip_slash s) "/" = false.
Proof.
  unfold rstrip_slash.
  induction s as [|c s IH]; [reflexivity|].
  rewrite rstrip_by_cons.
  destruct (String.eqb_spec (rstrip_by (Ascii.eqb "/") s) EmptyString) as [E|E];
    cbn [andb].
  - destruct (Ascii.eqb_spec "/"%char c) as [Ec|Ec]; [reflexivity|].
    rewrite E, endswith_cons, eqb_cons_empty.
    destruct (Ascii.eqb_spec c "/"%char) as [Ec'|Ec']; [now subst c|reflexivity].
  - rewrite endswith_cons, IH, orb_false_r, eqb_cons_empty.
    apply String.eqb_neq in E. rewrite E. apply andb_false_r.
Qed.

(** A string without a trailing slash is left alone. *)
Lemma rstrip_slash_fixed (s : string) :
  endswith s "/" = false -> rstrip_slash s = s.
Proof.
  unfold rstrip_slash.
  induction s as [|c s IH]; intros H; [reflexivity|].
  rewrite endswith_cons in H. apply orb_false_iff in H as [H1 H2].
  rewrite rstrip_by_cons, (IH H2).
  rewrite eqb_cons_empty in H1.
  destruct (String.eqb_spec s EmptyString) as [E|E]; cbn [andb]; [|reflexivity].
  rewrite andb_true_r in H1. rewrite Ascii.eqb_sym, H1. reflexivity.
Qed.

End StringFacts.

(** ** Handle normalisation *)

(** C6. An input that is not DID-prefixed and has no "." gets ".bsky.social"
    appended once; an input that is DID-prefixed or has a "." is returned
    unchanged; and [maybe_assume_bsky] is idempotent, so the suffix is never
    appended twice. *)
Theorem maybe_assume_bsky_appends_once (handle : string) :
  (startswith handle "did:" = false -> str_in "." handle = false ->
   maybe_assume_bsky handle = handle ++ ".bsky.social")
  /\ (startswith handle "did:" = true \/ str_in "." handle = true ->
      maybe_assume_bsky handle = handle)
  /\ maybe_assume_bsky (maybe_assume_bsky handle) = maybe_assume_bsky handle.
Proof.
  assert (Hfix : forall h, startswith h "did:" = true \/ str_in "." h = true ->
                           maybe_assume_bsky h = h).
  { intros h [H|H]; unfold maybe_assume_bsky; rewrite H; simpl; [reflexivity|].
    now destruct (startswith h "did:"). }
  split; [|split].
  - intros Hd Hp. unfold maybe_assume_bsky. now rewrite Hd, Hp.
  - apply Hfix.
  - apply Hfix. unfold maybe_assume_bsky.
    destruct (startswith handle "did:") eqn:Hd; [now left|].
    destruct (str_in "." handle) eqn:Hp; cbn [negb]; [now right|].
    right. now apply str_in_app_r.
Qed.

(** The expansion step of [login_flow] is [maybe_assume_bsky] itself: its
    guard repeats the tests made inside. *)
Lemma assume_bsky_if_bare_eq (input_val : string) :
  assume_bsky_if_bare input_val = maybe_assume_bsky input_val.
Proof.
  unfold assume_bsky_if_bare, maybe_assume_bsky.
  destruct (startswith input_val "did:"); [reflexivity|].
  now destruct (str_in "." input_val).
Qed.

Lemma maybe_assume_bsky_appends_once_witness :
  maybe_assume_bsky "alice" = "alice.bsky.social"
  /\ maybe_assume_bsky "alice.bsky.social" = "alice.bsky.social".
Proof.
  split.
  - apply (proj1 (maybe_assume_bsky_appends_once "alice")); reflexivity.
  - apply (proj1 (proj2 (maybe_assume_bsky_appends_once "alice.bsky.social"))).
    right. reflexivity.
Defined.

(** ** The PDS endpoint of a DID document *)

Section Extractor.

Lemma first_some_hit {A B} (f : A -> option B) (l1 : list A) (x : A) (l2 : list A) (b : B) :
  (forall y, In y l1 -> f y = None) -> f x = Some b ->
  first_some f (l1 ++ x :: l2) = Some b.
Proof.
  induction l1 as [|y l1 IH]; intros Hn Hx; cbn [first_some app].
  - now rewrite Hx.
  - rewrite (Hn y (or_introl eq_refl)). apply IH; [|exact Hx].
    intros z Hz. apply Hn. now right.
Qed.

Lemma first_some_miss {A B} (f : A -> option B) (l : list A) :
  (forall y, In y l -> f y = None) -> first_some f l = None.
Proof.
  induction l as [|y l IH]; intros Hn; cbn [first_some]; [reflexivity|].
  rewrite (Hn y (or_introl eq_refl)). apply IH. intros z Hz. apply Hn. now right.
Qed.

(** The three accepted forms of the id all come down to the suffix test. *)
Lemma sid_matches_suffix (sid did : string) :
  sid_matches (PStr sid) did = Ok (endswith sid "#atproto_pds").
Proof.
  unfold sid_matches. f_equal.
  destruct (endswith sid "#atproto_pds") eqn:E; [reflexivity|]. cbn [orb].
  destruct (String.eqb_spec sid "#atproto_pds") as [->|_];
    [now rewrite endswith_refl in E|]. cbn [orb].
  destruct (String.eqb_spec sid (did ++ "#atproto_pds")) as [->|_];
    [now rewrite endswith_app in E | reflexivity].
Qed.

(** The endpoint the first loop reads is usable exactly when
    [endpoint_string] is. *)
Lemma first_loop_endpoint (e1 e2 : pyval) :
  match Py.or_ (Py.or_ e1 e2) e1 with
  | PStr e => if negb (e =? EmptyString) then Some e else None
  | _ => None
  end =
  match Py.or_ e1 e2 with
  | PStr e => if e =? EmptyString then None else Some e
  | _ => None
  end.
Proof.
  unfold Py.or_.
  destruct (Py.truthy e1) eqn:T1.
  - rewrite T1. destruct e1; try reflexivity. now destruct (s =? EmptyString).
  - destruct (Py.truthy e2) eqn:T2.
    + destruct e2; try reflexivity. now destruct (s =? EmptyString).
    + destruct e1, e2; try reflexivity; cbn [Py.truthy] in T1, T2;
        repeat match goal with
        | H : negb (?x =? EmptyString) = false |- _ =>
            apply negb_false_iff in H; rewrite H
        end; reflexivity.
Qed.

Lemma scan_by_id_first (did : string) (items : list pyval) :
  forallb wf_descriptor items = true ->
  scan_by_id items did = Ok (option_map rstrip_slash (first_some (pds_endpoint did) items)).
Proof.
  induction items as [|s items IH]; intros Hwf; [reflexivity|].
  cbn [forallb] in Hwf. apply andb_true_iff in Hwf as [Hs Hwf].
  specialize (IH Hwf).
  destruct s; try discriminate Hs.
  cbn [scan_by_id first_some]. unfold pds_endpoint at 1, id_is_pds, endpoint_string.
  unfold wf_descriptor in Hs.
  destruct (dict_get d "id" (PStr EmptyString)) eqn:Eid; try discriminate Hs.
  rewrite sid_matches_suffix. cbn [rbind].
  pose proof (sid_matches_suffix s did) as Hm. unfold sid_matches in Hm.
  injection Hm as Hm. rewrite Hm.
  destruct (endswith s "#atproto_pds"); [|exact IH].
  rewrite <- first_loop_endpoint.
  destruct (Py.or_ _ (dict_get d "serviceEndpoint" PNone)); try exact IH.
  destruct (negb (s0 =? EmptyString)); [reflexivity | exact IH].
Qed.

Lemma scan_http_first (items : list pyval) :
  forallb wf_descriptor items = true ->
  scan_http items = Ok (option_map rstrip_slash (first_some http_endpoint items)).
Proof.
  induction items as [|s items IH]; intros Hwf; [reflexivity|].
  cbn [forallb] in Hwf. apply andb_true_iff in Hwf as [Hs Hwf].
  specialize (IH Hwf).
  destruct s; try discriminate Hs.
  cbn [scan_http first_some]. unfold http_endpoint at 1, endpoint_string.
  destruct (Py.or_ _ _); try exact IH.
  destruct (String.eqb_spec s EmptyString) as [->|_]; [exact IH|].
  destruct (startswith s "http"); [reflexivity | exact IH].
Qed.

(** On a well-formed document the two loops are two searches. *)
Lemma extract_pds_searches (doc : pyval) (did : string) :
  wf_did_doc doc = true ->
  extract_pds_from_did_doc doc did =
  Ok (match first_some (pds_endpoint did) (service_list doc) with
      | Some e => Some (rstrip_slash e)
      | None => option_map rstrip_slash (first_some http_endpoint (service_list doc))
      end).
Proof.
  intros Hwf. destruct doc; try discriminate Hwf.
  unfold wf_did_doc in Hwf. unfold service_list, extract_pds_from_did_doc.
  unfold Py.get, Py.get_default. fold (dict_get d "service" PNone).
  fold (dict_get d "services" PNone). cbn [rbind].
  set (s1 := dict_get d "service" PNone) in *.
  set (s2 := dict_get d "services" PNone) in *.
  assert (Hsvc : (if Py.truthy s1 then Ok s1 else Ok (Py.or_ s2 (PList [])))
                 = Ok (Py.or_ (Py.or_ s1 s2) (PList []))).
  { unfold Py.or_. destruct (Py.truthy s1) eqn:T1; [now rewrite T1 | reflexivity]. }
  rewrite Hsvc. cbn [rbind].
  destruct (Py.or_ (Py.or_ s1 s2) (PList [])) as [| | | | |l|] eqn:E;
    try discriminate Hwf.
  destruct l as [|x l]; [reflexivity|].
  cbn [Py.truthy negb Py.iter rbind].
  rewrite (scan_by_id_first did _ Hwf). cbn [rbind].
  destruct (first_some (pds_endpoint did) (x :: l)); [reflexivity|].
  now apply scan_http_first.
Qed.

End Extractor.

(** C4. On a DID document (a dict whose service descriptors are dicts with
    string ids): the endpoint of the first descriptor matching "#atproto_pds"
    by id (in any of the three forms, which all come down to the suffix
    test) is returned with trailing slashes removed; when no descriptor
    matches by id, the first endpoint starting with "http" is returned, also
    without trailing slashes; with no service list, or with nothing matching
    either rule, the result is [None]; and the spec's example document yields
    "https://pds.example". *)
Theorem extract_pds_from_did_doc_rules (doc : pyval) (did : string) :
  wf_did_doc doc = true ->
  (forall l1 s l2 e,
      service_list doc = (l1 ++ s :: l2)%list ->
      id_is_pds did s = true -> endpoint_string s = Some e ->
      (forall x, In x l1 -> pds_endpoint did x = None) ->
      extract_pds_from_did_doc doc did = Ok (Some (rstrip_slash e)))
  /\ (forall l1 s l2 e,
      (forall x, In x (service_list doc) -> id_is_pds did x = false) ->
      service_list doc = (l1 ++ s :: l2)%list ->
      http_endpoint s = Some e ->
      (forall x, In x l1 -> http_endpoint x = None) ->
      extract_pds_from_did_doc doc did = Ok (Some (rstrip_slash e)))
  /\ (service_list doc = [] \/
      (forall x, In x (service_list doc) ->
                 pds_endpoint did x = None /\ http_endpoint x = None) ->
      extract_pds_from_did_doc doc did = Ok None)
  /\ (forall e, extract_pds_from_did_doc doc did = Ok (Some e) ->
                endswith e "/" = false)
  /\ (forall s, id_is_pds did s = true <->
                exists d sid, s = PDict d
                              /\ dict_get d "id" (PStr EmptyString) = PStr sid
                              /\ endswith sid "#atproto_pds" = true)
  /\ extract_pds_from_did_doc example_did_doc "did:plc:abc"
     = Ok (Some "https://pds.example").
Proof.
  intros Hwf. pose proof (extract_pds_searches doc did Hwf) as Hx.
  repeat split.
  - intros l1 s l2 e Hl Hid He Hl1. rewrite Hx, Hl.
    rewrite (first_some_hit _ l1 s l2 e Hl1); [reflexivity|].
    unfold pds_endpoint. now rewrite Hid.
  - intros l1 s l2 e Hno Hl He Hl1. rewrite Hx.
    rewrite first_some_miss.
    + rewrite Hl, (first_some_hit _ l1 s l2 e Hl1 He). reflexivity.
    + intros y Hy. unfold pds_endpoint. now rewrite (Hno y Hy).
  - intros [Hnil|Hnone]; rewrite Hx.
    + now rewrite Hnil.
    + rewrite !first_some_miss; [reflexivity | |]; intros y Hy; now apply Hnone.
  - intros e He. rewrite Hx in He. injection He as He.
    destruct (first_some (pds_endpoint did) (service_list doc)).
    + injection He as <-. apply rstrip_slash_no_trailing.
    + destruct (first_some http_endpoint (service_list doc)); [|discriminate He].
      injection He as <-. apply rstrip_slash_no_trailing.
  - intros H. unfold id_is_pds in H.
    destruct s as [| | | | | |d]; try discriminate H.
    destruct (dict_get d "id" (PStr EmptyString)) as [| | | |sid| |] eqn:Eid;
      try discriminate H.
    exists d, sid. repeat split; [exact Eid|].
    pose proof (sid_matches_suffix sid did) as Hm. unfold sid_matches in Hm.
    injection Hm as Hm. now rewrite <- Hm.
  - intros (d & sid & -> & Eid & Hs). unfold id_is_pds. now rewrite Eid, Hs.
Qed.

Lemma extract_pds_from_did_doc_rules_witness :
  wf_did_doc example_did_doc = true
  /\ endswith "https://pds.example" "/" = false.
Proof.
  split; [reflexivity|].
  apply (proj1 (proj2 (proj2 (proj2
           (extract_pds_from_did_doc_rules example_did_doc "did:plc:abc" eq_refl)))) 
           "https://pds.example").
  reflexivity.
Defined.

(** ** Traces *)

Section Traces.

Lemma extend_nil (st : state) : extend st [] = st.
Proof. destruct st. unfold extend. cbn. now rewrite app_nil_r. Qed.

Lemma extend_extend (st : state) (a b : list event) :
  extend (extend st a) b = extend st (a ++ b).
Proof. unfold extend. cbn. now rewrite app_assoc. Qed.

Lemma log_extend (e : event) (st : state) : log e st = extend st [e].
Proof. reflexivity. Qed.

Lemma trace_extend (st : state) (delta : list event) :
  trace (extend st delta) = (trace st ++ delta)%list.
Proof. reflexivity. Qed.

Lemma logins_app (a b : list event) : logins (a ++ b) = (logins a ++ logins b)%list.
Proof. apply filter_app. Qed.

Lemma logins_lookups (delta : list event) :
  forallb is_lookup delta = true -> logins delta = [].
Proof.
  induction delta as [|e delta IH]; intros H; [reflexivity|].
  cbn [forallb] in H. apply andb_true_iff in H as [He H].
  unfold logins. cbn [filter]. fold (logins delta). rewrite (IH H).
  now destruct e.
Qed.

End Traces.

(** ** The resolution strategies *)

Section Strategies.

Variable w : World.

Lemma str_in_char_cons (c a : ascii) (t : string) :
  str_in (String c EmptyString) (String a t)
  = Ascii.eqb a c || str_in (String c EmptyString) t.
Proof.
  cbn [str_in]. f_equal.
  change (String.prefix (String c EmptyString) (String a t))
    with (if ascii_dec c a then String.prefix EmptyString t else false).
  destruct (ascii_dec c a) as [->|Hn].
  - rewrite Ascii.eqb_refl. now destruct t.
  - symmetry. apply Ascii.eqb_neq. congruence.
Qed.

(** When the separator occurs there are two pieces, otherwise one. *)
Lemma split_once_pieces (c : ascii) (s : string) :
  if str_in (String c EmptyString) s
  then exists a b, split_once c s = [a; b]
  else split_once c s = [s].
Proof.
  induction s as [|a t IH]; [reflexivity|].
  rewrite str_in_char_cons. cbn [split_once].
  destruct (Ascii.eqb a c); cbn [orb]; [now eexists; eexists|].
  destruct (str_in (String c EmptyString) t).
  - destruct IH as (x & y & ->). now eexists; eexists.
  - now rewrite IH.
Qed.

(** The domain piece of the well-known strategy is defined on every handle
    without a slash. *)
Lemma well_known_domain_defined (raw : string) :
  str_in "/" raw = false -> exists domain, well_known_domain raw = Ok domain.
Proof.
  intros H. unfold well_known_domain. rewrite H.
  pose proof (split_once_pieces "." raw) as Hp.
  destruct (str_in "." raw); [|now eexists].
  destruct Hp as (a & b & Hp). rewrite Hp. now exists b.
Qed.

Lemma startswith_did_eq (s : string) :
  startswith s "did=" = true -> str_in "=" s = true.
Proof.
  unfold startswith. intros H. apply String.prefix_correct in H.
  destruct s as [|a [|b [|c [|d t]]]]; try discriminate H.
  cbn in H. injection H as -> -> -> ->.
  rewrite !str_in_char_cons. now rewrite Ascii.eqb_refl, !orb_true_r.
Qed.

(** The loop over the TXT answers never raises. *)
Lemma dns_first_did_total (answers : list string) :
  exists v, dns_first_did answers = Ok v.
Proof.
  induction answers as [|ans rest IH]; [now exists PNone|].
  cbn [dns_first_did].
  match goal with
  | |- context [startswith ?t "did="] => set (text := t)
  end.
  destruct (startswith text "did=") eqn:E; [|exact IH].
  apply startswith_did_eq in E.
  pose proof (split_once_pieces "=" text) as Hp. rewrite E in Hp.
  destruct Hp as (a & b & ->). now eexists.
Qed.

(** The DNS strategy always returns, having made at most its one query;
    a failed query gives [None]. *)
Lemma resolve_handle_via_dns_total (handle : string) (st : state) :
  exists v e1,
    resolve_handle_via_dns w handle st = (Ok v, extend st e1)
    /\ (e1 = [] \/ e1 = [dns_request handle])
    /\ (forall e, dns_resolve w (trace st) ("_atproto." ++ dns_query_name handle)
                  = Raise e -> v = PNone).
Proof.
  unfold resolve_handle_via_dns.
  destruct (dns_module w); cbn [negb].
  - unfold bind, try_except, dns_resolver_resolve, ret, lift.
    destruct (dns_resolve w (trace st) _) as [answers|e] eqn:E.
    + destruct (dns_first_did_total answers) as [v Hv]. rewrite Hv.
      exists v, [dns_request handle]. repeat split; [now right | discriminate].
    + exists PNone, [dns_request handle]. repeat split; now right.
  - exists PNone, []. unfold ret. rewrite extend_nil. repeat split; now left.
Qed.

(** The well-known strategy, when its domain piece is defined: it returns,
    having made at most its one request; a transport error or a non-200
    status gives [None]. *)
Lemma resolve_handle_via_well_known_total (handle domain : string) (st : state) :
  well_known_domain (strip_at handle) = Ok domain ->
  exists v e2,
    resolve_handle_via_well_known w handle st = (Ok v, extend st e2)
    /\ (e2 = [] \/ e2 = [well_known_request domain])
    /\ (forall e, requests_get w (trace st) (well_known_url domain) [] = Raise e ->
                  v = PNone)
    /\ (forall r, requests_get w (trace st) (well_known_url domain) [] = Ok r ->
                  status_code r <> 200 -> v = PNone).
Proof.
  intros Hd. unfold resolve_handle_via_well_known, bind, lift. rewrite Hd.
  destruct (domain =? EmptyString).
  - exists PNone, []. unfold ret. rewrite extend_nil. repeat split; now left.
  - unfold try_except, bind, requests_get_, ret.
    destruct (requests_get w (trace st) _ _) as [r|e] eqn:E.
    + destruct (Nat.eqb_spec (status_code r) 200) as [H200|H200].
      * exists (PStr (strip (text r))), [well_known_request domain].
        repeat split; [now right | discriminate |].
        intros r' [= <-] Hn. contradiction.
      * exists PNone, [well_known_request domain]. repeat split; now right.
    + exists PNone, [well_known_request domain]. repeat split; now right.
Qed.

(** The public resolver strategy always returns, after its one request; a
    transport error, a non-200 status or an unparseable body gives [None]. *)
Lemma resolve_handle_public_api_total (handle : string) (st : state) :
  exists v,
    resolve_handle_public_api w handle st = (Ok v, extend st [public_request handle])
    /\ (forall e, requests_get w (trace st) public_resolver_url
                    [("handle", strip_at handle)] = Raise e -> v = PNone)
    /\ (forall r, requests_get w (trace st) public_resolver_url
                    [("handle", strip_at handle)] = Ok r ->
                  status_code r <> 200 \/ (exists e, json r = Raise e) -> v = PNone).
Proof.
  unfold resolve_handle_public_api, try_except, bind, requests_get_, ret, lift.
  destruct (requests_get w (trace st) _ _) as [r|e] eqn:E.
  - destruct (Nat.eqb_spec (status_code r) 200) as [H200|H200].
    + destruct (json r) as [data|e] eqn:Ej.
      * destruct (Py.get data "did") as [v|e] eqn:Eg.
        -- exists v. repeat split; [discriminate|].
           intros r' [= <-] [Hn|[e He]]; [contradiction | congruence].
        -- exists PNone. repeat split.
      * exists PNone. repeat split.
    + exists PNone. repeat split.
  - exists PNone. repeat split.
Qed.

(** [fetch_did_document] always returns, after its one request; a transport
    error, a non-200 status or an unparseable body gives [None]. *)
Lemma fetch_did_document_total (did : string) (st : state) :
  exists v url timeout,
    fetch_did_document w did st = (Ok v, extend st [EvHttpGet url [] timeout])
    /\ (forall e, requests_get w (trace st) url [] = Raise e -> v = PNone)
    /\ (forall r, requests_get w (trace st) url [] = Ok r ->
                  status_code r <> 200 \/ (exists e, json r = Raise e) -> v = PNone).
Proof.
  unfold fetch_did_document.
  destruct (startswith did "did:web:");
    [|destruct (startswith did "did:plc:" || startswith did "did:plc")];
    unfold try_except, bind, requests_get_, ret, lift;
    match goal with
    | |- context [requests_get w (trace st) ?u []] =>
        destruct (requests_get w (trace st) u []) as [r|e] eqn:E;
        [destruct (Nat.eqb_spec (status_code r) 200) as [H200|H200];
         [destruct (json r) as [data|e] eqn:Ej|]|]
    end;
    try (eexists PNone, _, _; repeat split; fail).
  - exists data. do 2 eexists. split; [reflexivity|]. split.
    + intros e' He. rewrite E in He. discriminate He.
    + intros r' Hr [Hn|[e' He]]; rewrite E in Hr; injection Hr as <-;
        [contradiction | congruence].
  - exists data. do 2 eexists. split; [reflexivity|]. split.
    + intros e' He. rewrite E in He. discriminate He.
    + intros r' Hr [Hn|[e' He]]; rewrite E in Hr; injection Hr as <-;
        [contradiction | congruence].
  - destruct data as [| | | | | |d];
      try (eexists PNone, _, _; repeat split; fail).
    destruct (Py.assoc d "didDocument") as [doc|];
      [|eexists PNone, _, _; repeat split; fail].
    exists doc. do 2 eexists. split; [reflexivity|]. split.
    + intros e' He. rewrite E in He. discriminate He.
    + intros r' Hr [Hn|[e' He]]; rewrite E in Hr; injection Hr as <-;
        [contradiction | congruence].
Qed.

End Strategies.

(** ** The cascade and the document fetch *)

Section Resolution.

Variable w : World.

Lemma prefix_app_l (a b s : string) :
  String.prefix (a ++ b) s = true -> String.prefix a s = true.
Proof.
  revert s. induction a as [|c a IH]; intros s H; [now destruct s|].
  destruct s as [|c' s]; [discriminate H|].
  cbn in *. destruct (ascii_dec c c'); [now apply IH | discriminate H].
Qed.

(** The DNS step of [resolve_handle_to_did] is the DNS strategy itself. *)
Lemma dns_step (h : string) (st : state) :
  (if dns_module w
   then try_except (resolve_handle_via_dns w h) (fun _ => ret PNone)
   else ret PNone) st
  = resolve_handle_via_dns w h st.
Proof.
  destruct (dns_module w) eqn:Ed.
  - destruct (resolve_handle_via_dns_total w h st) as (v & e1 & Hr & _).
    unfold try_except. now rewrite Hr.
  - unfold resolve_handle_via_dns. now rewrite Ed.
Qed.

(** What a run of the cascade does, in terms of the three strategies run
    one after the other. *)
Lemma resolve_handle_to_did_run (handle domain : string) (st : state) :
  well_known_domain (strip_at (strip_at handle)) = Ok domain ->
  let h := strip_at handle in
  exists v1 e1 v2 e2 v3,
    let st1 := extend st e1 in
    let st2 := extend st1 e2 in
    let st3 := extend st2 [public_request h] in
    resolve_handle_via_dns w h st = (Ok v1, st1)
    /\ resolve_handle_via_well_known w h st1 = (Ok v2, st2)
    /\ resolve_handle_public_api w h st2 = (Ok v3, st3)
    /\ (e1 = [] \/ e1 = [dns_request h])
    /\ (e2 = [] \/ e2 = [well_known_request domain])
    /\ resolve_handle_to_did w handle st
       = (if Py.truthy v1 then (Ok v1, st1)
          else if Py.truthy v2 then (Ok v2, st2)
          else (Ok v3, st3))
    /\ (forall v st', resolve_handle_to_did w handle st = (Ok v, st') ->
                      Py.truthy v = false ->
                      Py.truthy v1 = false /\ Py.truthy v2 = false
                      /\ Py.truthy v3 = false /\ st' = st3).
Proof.
  intros Hd h.
  destruct (resolve_handle_via_dns_total w h st) as (v1 & e1 & H1 & He1 & _).
  destruct (resolve_handle_via_well_known_total w h domain (extend st e1) Hd)
    as (v2 & e2 & H2 & He2 & _).
  destruct (resolve_handle_public_api_total w h (extend (extend st e1) e2))
    as (v3 & H3 & _).
  exists v1, e1, v2, e2, v3. cbn zeta.
  assert (Hrun : resolve_handle_to_did w handle st
                 = (if Py.truthy v1 then (Ok v1, extend st e1)
                    else if Py.truthy v2 then (Ok v2, extend (extend st e1) e2)
                    else (Ok v3, extend (extend (extend st e1) e2) [public_request h]))).
  { unfold resolve_handle_to_did. fold h. unfold bind at 1.
    rewrite dns_step, H1.
    destruct (Py.truthy v1); [reflexivity|].
    unfold bind. rewrite H2.
    destruct (Py.truthy v2); [reflexivity | exact H3]. }
  repeat split; try assumption.
  all: rewrite Hrun in H;
    destruct (Py.truthy v1) eqn:T1;
    [injection H as <- <-; congruence|];
    destruct (Py.truthy v2) eqn:T2;
    [injection H as <- <-; congruence|];
    injection H as <- <-; congruence.
Qed.

End Resolution.

(** C1. For a handle on which the well-known strategy's domain piece is
    defined (every handle without "/"), [resolve_handle_to_did] runs the DNS
    lookup, then the well-known fetch, then the public resolver, each making
    at most its own one request; it returns the first truthy result, in the
    state that strategy left, so no later strategy has run; and a falsy
    result is returned only when all three strategies gave a falsy result. *)
Theorem resolve_handle_to_did_cascade (w : World) (handle domain : string) (st : state) :
  well_known_domain (strip_at (strip_at handle)) = Ok domain ->
  let h := strip_at handle in
  exists v1 e1 v2 e2 v3,
    let st1 := extend st e1 in
    let st2 := extend st1 e2 in
    let st3 := extend st2 [public_request h] in
    resolve_handle_via_dns w h st = (Ok v1, st1)
    /\ resolve_handle_via_well_known w h st1 = (Ok v2, st2)
    /\ resolve_handle_public_api w h st2 = (Ok v3, st3)
    /\ (e1 = [] \/ e1 = [dns_request h])
    /\ (e2 = [] \/ e2 = [well_known_request domain])
    /\ resolve_handle_to_did w handle st
       = (if Py.truthy v1 then (Ok v1, st1)
          else if Py.truthy v2 then (Ok v2, st2)
          else (Ok v3, st3))
    /\ (forall v st', resolve_handle_to_did w handle st = (Ok v, st') ->
                      Py.truthy v = false ->
                      Py.truthy v1 = false /\ Py.truthy v2 = false
                      /\ Py.truthy v3 = false /\ st' = st3).
Proof. exact (resolve_handle_to_did_run w handle domain st). Qed.

Lemma resolve_handle_to_did_cascade_witness :
  exists v st',
    resolve_handle_to_did (scenario_world "https://pds.example/") "bob.example.com"
      (typing []) = (Ok v, st')
    /\ Py.truthy v = true.
Proof.
  destruct (resolve_handle_to_did_cascade (scenario_world "https://pds.example/")
              "bob.example.com" "example.com" (typing []) eq_refl)
    as (v1 & e1 & v2 & e2 & v3 & H1 & H2 & H3 & He1 & He2 & Hrun & Hnone).
  exists (PStr "did:plc:xyz"). eexists. split; reflexivity.
Defined.

(** C10. For a DID that is neither "did:web:"-prefixed nor "did:plc"-prefixed,
    [fetch_did_document] asks the universal resolver and always returns; what
    it returns is not [None] only when the response has status 200 and a
    JSON body that is a dict with the key "didDocument", and then it is the
    value under that key; a 200 response whose body lacks the key (a bare
    document included) gives [None]. *)
Theorem fetch_did_document_other_method (w : World) (did : string) (st : state) :
  startswith did "did:web:" = false ->
  startswith did "did:plc" = false ->
  let url := "https://uniresolver.io/1.0/identifiers/" ++ did in
  exists v,
    fetch_did_document w did st = (Ok v, extend st [EvHttpGet url [] 6])
    /\ (v <> PNone ->
        exists r d, requests_get w (trace st) url [] = Ok r
                    /\ status_code r = 200
                    /\ json r = Ok (PDict d)
                    /\ Py.assoc d "didDocument" = Some v)
    /\ (forall r d doc,
          requests_get w (trace st) url [] = Ok r -> status_code r = 200 ->
          json r = Ok (PDict d) -> Py.assoc d "didDocument" = Some doc ->
          v = doc)
    /\ (forall r payload,
          requests_get w (trace st) url [] = Ok r -> status_code r = 200 ->
          json r = Ok payload ->
          (forall d, payload = PDict d -> Py.assoc d "didDocument" = None) ->
          v = PNone).
Proof.
  intros Hweb Hplc url. unfold fetch_did_document. rewrite Hweb.
  assert (Hplc' : startswith did "did:plc:" = false).
  { destruct (startswith did "did:plc:") eqn:E; [|reflexivity].
    unfold startswith in *.
    now rewrite (prefix_app_l "did:plc" ":" did E) in Hplc. }
  rewrite Hplc', Hplc. cbn [orb]. fold url.
  unfold try_except, bind, requests_get_, ret, lift.
  destruct (requests_get w (trace st) url []) as [r|e] eqn:E.
  2:{ exists PNone. repeat split; try congruence. }
  destruct (Nat.eqb_spec (status_code r) 200) as [H200|H200].
  2:{ exists PNone. repeat split; try congruence.
      all: intros; congruence. }
  destruct (json r) as [payload|e] eqn:Ej.
  2:{ exists PNone. repeat split; try congruence. all: intros; congruence. }
  destruct payload as [| | | | | |d];
    try (exists PNone; repeat split; try congruence; intros; congruence).
  destruct (Py.assoc d "didDocument") as [doc|] eqn:Ea.
  - exists doc. split; [reflexivity|]. split; [|split].
    + intros _. now exists r, d.
    + intros r' d' doc' [= <-] _ Hj Hd. rewrite Ej in Hj.
      injection Hj as <-. congruence.
    + intros r' payload' [= <-] _ Hj Hd. rewrite Ej in Hj.
      injection Hj as <-. specialize (Hd d eq_refl). congruence.
  - exists PNone. repeat split; try congruence.
Qed.

Lemma fetch_did_document_other_method_witness :
  exists v, fetch_did_document offline_world "did:key:z6Mk" (typing [])
            = (Ok v, extend (typing [])
                       [EvHttpGet "https://uniresolver.io/1.0/identifiers/did:key:z6Mk" [] 6]).
Proof.
  destruct (fetch_did_document_other_method offline_world "did:key:z6Mk" (typing [])
              eq_refl eq_refl) as (v & Hv & _).
  now exists v.
Defined.

(** ** Anatomy of a login run *)

Section LoginRuns.

Variable w : World.

(** [try_login] makes exactly one authentication attempt and never raises. *)
Lemma try_login_run (base : option string) (id pw : string) (st : state) :
  try_login w base id pw st =
  (Ok match client_login w (trace st) (login_target base) id pw with
      | Ok lo => (Some {| base_url := login_target base; me_did := lo_me_did lo |},
                  lo_profile lo)
      | Raise e => (None, PDict [("error", PStr (exn_str e))])
      end,
   extend st [EvLogin (login_target base) id pw]).
Proof.
  unfold try_login, try_except, bind, sdk_login, ret. fold (login_target base).
  now destruct (client_login w (trace st) (login_target base) id pw).
Qed.

(** The cascade only adds lookups to the trace, whatever it ends with. *)
Lemma resolve_handle_to_did_lookups (handle : string) (st : state) :
  exists delta,
    snd (resolve_handle_to_did w handle st) = extend st delta
    /\ forallb is_lookup delta = true.
Proof.
  destruct (well_known_domain (strip_at (strip_at handle))) as [domain|e] eqn:Ed.
  - destruct (resolve_handle_to_did_run w handle domain st Ed)
      as (v1 & e1 & v2 & e2 & v3 & _ & _ & _ & He1 & He2 & Hrun & _).
    rewrite Hrun.
    destruct (Py.truthy v1); [|destruct (Py.truthy v2)]; cbn [snd];
      rewrite ?extend_extend; eexists; (split; [reflexivity|]);
      destruct He1 as [-> | ->], He2 as [-> | ->]; reflexivity.
  - destruct (resolve_handle_via_dns_total w (strip_at handle) st)
      as (v1 & e1 & H1 & He1 & _).
    unfold resolve_handle_to_did. unfold bind at 1. rewrite dns_step, H1.
    destruct (Py.truthy v1).
    + exists e1. split; [reflexivity|]. now destruct He1 as [-> | ->].
    + unfold bind, resolve_handle_via_well_known, lift. rewrite Ed. cbn [snd].
      exists e1. split; [reflexivity|]. now destruct He1 as [-> | ->].
Qed.

Lemma fetch_did_document_lookups (did : string) (st : state) :
  exists v delta,
    fetch_did_document w did st = (Ok v, extend st delta)
    /\ forallb is_lookup delta = true.
Proof.
  destruct (fetch_did_document_total w did st) as (v & url & t & H & _).
  now exists v, [EvHttpGet url [] t].
Qed.

(** The second half of [login_flow]: either it stops before any login, with
    a failure or an exception, or a PDS was discovered and exactly one
    login is attempted against it, whose outcome is the outcome of the
    flow. *)
Lemma login_via_pds_cases (input_val id pw : string) (st1 : state) :
  (exists delta,
      snd (login_via_pds w input_val id pw st1) = extend st1 delta
      /\ forallb is_lookup delta = true
      /\ (fst (login_via_pds w input_val id pw st1) = Ok None
          \/ exists e, fst (login_via_pds w input_val id pw st1) = Raise e))
  \/
  (exists d pds st3 delta,
      discovers_pds w input_val st1 d pds st3
      /\ st3 = extend st1 delta
      /\ forallb is_lookup delta = true
      /\ login_via_pds w input_val id pw st1 =
         (Ok match client_login w (trace st3) (Some (xrpc_base pds)) id pw with
             | Ok lo => Some ({| base_url := Some (xrpc_base pds);
                                 me_did := lo_me_did lo |},
                              Py.or_ (lo_me_did lo) (PStr d))
             | Raise _ => None
             end,
          extend st3 [EvLogin (Some (xrpc_base pds)) id pw])).
Proof.
  destruct (login_via_pds w input_val id pw st1) as [out st'] eqn:Erun.
  cbn [fst snd].
  unfold login_via_pds in Erun. unfold bind at 1 in Erun.
  (* step 2: the DID *)
  assert (Hdid : exists r delta2,
             (if startswith input_val "did:" then ret (PStr input_val)
              else resolve_handle_to_did w input_val) st1 = (r, extend st1 delta2)
             /\ forallb is_lookup delta2 = true
             /\ forall d, r = Ok (PStr d) -> resolves_did w input_val st1 d (extend st1 delta2)).
  { unfold resolves_did. destruct (startswith input_val "did:").
    - exists (Ok (PStr input_val)), []. unfold ret. rewrite extend_nil.
      split; [reflexivity|]. split; [reflexivity|]. now intros d [= ->].
    - destruct (resolve_handle_to_did_lookups input_val st1) as (delta2 & Hs & Hl).
      destruct (resolve_handle_to_did w input_val st1) as [r st2] eqn:E.
      cbn [snd] in Hs. subst st2. exists r, delta2.
      split; [reflexivity|]. split; [exact Hl|]. now intros d ->. }
  destruct Hdid as (r & delta2 & Hr & Hl2 & Hres). rewrite Hr in Erun.
  destruct r as [did|e].
  2:{ injection Erun as <- <-. left. exists delta2. split; [reflexivity|].
      split; [exact Hl2|]. right. now exists e. }
  destruct (Py.truthy did) eqn:Tdid; cbn [negb] in Erun.
  2:{ injection Erun as <- <-. left. exists delta2. split; [reflexivity|].
      split; [exact Hl2|]. now left. }
  destruct did as [| | | |d| |];
    try (injection Erun as <- <-; left; exists delta2; split; [reflexivity|];
         split; [exact Hl2|]; right; now eexists).
  (* step 3: the document *)
  destruct (fetch_did_document_lookups d (extend st1 delta2)) as (doc & delta3 & Hf & Hl3).
  unfold bind at 1 in Erun. rewrite Hf in Erun. rewrite extend_extend in *.
  assert (Hl23 : forallb is_lookup (delta2 ++ delta3) = true).
  { rewrite forallb_app. now rewrite Hl2, Hl3. }
  destruct (Py.truthy doc) eqn:Tdoc; cbn [negb] in Erun.
  2:{ injection Erun as <- <-. left. exists (delta2 ++ delta3)%list.
      split; [reflexivity|]. split; [exact Hl23|]. now left. }
  unfold bind at 1, lift in Erun.
  destruct (extract_pds_from_did_doc doc d) as [pds_host|e] eqn:Ex.
  2:{ injection Erun as <- <-. left. exists (delta2 ++ delta3)%list.
      split; [reflexivity|]. split; [exact Hl23|]. right. now exists e. }
  destruct (Py.truthy_opt pds_host) eqn:Tp; cbn [negb] in Erun.
  2:{ injection Erun as <- <-. left. exists (delta2 ++ delta3)%list.
      split; [reflexivity|]. split; [exact Hl23|]. now left. }
  destruct pds_host as [pds|]; [|discriminate Tp].
  cbn [Py.truthy_opt] in Tp.
  (* step 4: the login *)
  right. exists d, pds, (extend st1 (delta2 ++ delta3)), (delta2 ++ delta3)%list.
  split; [|split; [reflexivity|split; [exact Hl23|]]].
  - exists (extend st1 delta2), doc.
    split; [now apply Hres|]. split; [intros ->; discriminate Tdid|].
    split; [exact Hf|]. split; [exact Tdoc|]. split; [exact Ex|].
    intros ->. discriminate Tp.
  - rewrite <- Erun. unfold bind. rewrite try_login_run. unfold login_target.
    rewrite Tp. now destruct (client_login w _ _ id pw).
Qed.

(** The expression [login_flow] computes the session DID with after a
    default-service login. *)
Lemma default_session_did (me profile_or_err : pyval) (id : string) :
  let user_did := Py.or_ me (profile_did profile_or_err) in
  Py.or_ (if negb (Py.truthy user_did) then profile_did profile_or_err else user_did)
         (PStr id)
  = if Py.truthy me then me
    else if Py.truthy (profile_did profile_or_err) then profile_did profile_or_err
    else PStr id.
Proof.
  cbn zeta. unfold Py.or_.
  destruct (Py.truthy me) eqn:Tm; rewrite ?Tm; cbn [negb]; rewrite ?Tm;
    [reflexivity|].
  destruct (Py.truthy (profile_did profile_or_err)) eqn:Tp;
    rewrite ?Tp; cbn [negb]; now rewrite ?Tp.
Qed.

(** All the ways [login_flow] can go. *)
Lemma login_flow_cases (raw : string) (st : state) :
  let id := identifier_for_login raw in
  (strip raw = EmptyString /\ login_flow w raw st = (Ok None, st))
  \/ (strip raw <> EmptyString /\ stdin st = []
      /\ login_flow w raw st = (Raise EOFError, extend st [EvGetpass password_prompt]))
  \/ (exists line rest,
        strip raw <> EmptyString /\ stdin st = line :: rest
        /\ let st_pw := {| stdin := rest;
                           trace := trace st ++ [EvGetpass password_prompt] |} in
           let pw := strip line in
           (pw = EmptyString /\ login_flow w raw st = (Ok None, st_pw))
           \/ (pw <> EmptyString
               /\ let st1 := extend st_pw [EvLogin None id pw] in
                  login_flow w raw st =
                  match client_login w (trace st_pw) None id pw with
                  | Ok lo =>
                      (Ok (Some ({| base_url := None; me_did := lo_me_did lo |},
                                 if Py.truthy (lo_me_did lo) then lo_me_did lo
                                 else if Py.truthy (profile_did (lo_profile lo))
                                      then profile_did (lo_profile lo)
                                      else PStr id)),
                       st1)
                  | Raise _ => login_via_pds w id id pw st1
                  end)).
Proof.
  intros id. destruct (login_flow w raw st) as [out st'] eqn:Erun.
  unfold login_flow in Erun. fold (identifier_for_login raw) in Erun. fold id in Erun.
  destruct (String.eqb_spec (strip raw) EmptyString) as [E|E].
  { left. split; [exact E|]. now rewrite <- Erun. }
  right. unfold bind at 1, getpass in Erun.
  destruct (stdin st) as [|line rest] eqn:Es.
  { left. split; [exact E|]. split; [reflexivity|]. now rewrite <- Erun. }
  right. exists line, rest. split; [exact E|]. split; [reflexivity|]. cbn zeta.
  destruct (String.eqb_spec (strip line) EmptyString) as [Ep|Ep].
  { left. split; [exact Ep|]. now rewrite <- Erun. }
  right. split; [exact Ep|].
  rewrite <- Erun. unfold bind. rewrite try_login_run. cbn [login_target fst snd].
  destruct (client_login w _ None id (strip line)) as [lo|e]; cbn [fst snd].
  - unfold ret. cbn [me_did]. now rewrite default_session_did.
  - reflexivity.
Qed.

End LoginRuns.

(** ** The login flow *)

Section LoginFlow.

Variable w : World.

(** Without a PDS endpoint the second half of the flow fails quietly, in the
    state the document fetch left. *)
Lemma login_via_pds_no_endpoint (input_val id pw d : string) (st1 st2 st3 : state)
    (doc : pyval) (o : option string) :
  resolves_did w input_val st1 d st2 -> d <> EmptyString ->
  fetch_did_document w d st2 = (Ok doc, st3) -> Py.truthy doc = true ->
  extract_pds_from_did_doc doc d = Ok o -> Py.truthy_opt o = false ->
  login_via_pds w input_val id pw st1 = (Ok None, st3).
Proof.
  intros Hres Hd Hf Tdoc Hx To.
  assert (H1 : (if startswith input_val "did:" then ret (PStr input_val)
                else resolve_handle_to_did w input_val) st1 = (Ok (PStr d), st2)).
  { unfold resolves_did in Hres. destruct (startswith input_val "did:"); [|exact Hres].
    destruct Hres as [-> ->]. reflexivity. }
  unfold login_via_pds. unfold bind at 1. rewrite H1.
  apply String.eqb_neq in Hd. cbn [Py.truthy]. rewrite Hd. cbn [negb].
  unfold bind at 1. rewrite Hf, Tdoc. cbn [negb].
  unfold bind, lift. rewrite Hx, To. reflexivity.
Qed.

(** The lookups between the two logins leave the prompts and logins as they
    were. *)
Lemma discovery_lookups (input_val d : string) (st1 st2 st3 : state) (doc : pyval) :
  resolves_did w input_val st1 d st2 ->
  fetch_did_document w d st2 = (Ok doc, st3) ->
  exists delta, st3 = extend st1 delta /\ forallb is_lookup delta = true.
Proof.
  intros Hres Hf.
  assert (H2 : exists delta2, st2 = extend st1 delta2 /\ forallb is_lookup delta2 = true).
  { unfold resolves_did in Hres. destruct (startswith input_val "did:").
    - destruct Hres as [_ ->]. exists []. now rewrite extend_nil.
    - destruct (resolve_handle_to_did_lookups w input_val st1) as (delta2 & Hs & Hl).
      rewrite Hres in Hs. now exists delta2. }
  destruct H2 as (delta2 & -> & Hl2).
  destruct (fetch_did_document_lookups w d (extend st1 delta2)) as (v & delta3 & Hf' & Hl3).
  rewrite Hf in Hf'. injection Hf' as _ ->. rewrite extend_extend.
  exists (delta2 ++ delta3)%list. split; [reflexivity|].
  rewrite forallb_app. now rewrite Hl2, Hl3.
Qed.

(** The login attempts of a run: none, the default one, or the default one
    and then one against a discovered PDS, which ends the run. *)
Lemma login_flow_logins (raw : string) (st : state) :
  let id := identifier_for_login raw in
  (exists delta,
      trace (snd (login_flow w raw st)) = (trace st ++ delta)%list
      /\ ((logins delta = []
           /\ forall session, fst (login_flow w raw st) <> Ok (Some session))
          \/ (exists pw, logins delta = [EvLogin None id pw])
          \/ (exists pw d pds st1 st3 before,
                logins delta = [EvLogin None id pw;
                                EvLogin (Some (xrpc_base pds)) id pw]
                /\ discovers_pds w id st1 d pds st3
                /\ trace st3 = (trace st ++ before)%list
                /\ delta = (before ++ [EvLogin (Some (xrpc_base pds)) id pw])%list
                /\ (forall e,
                      client_login w (trace st3) (Some (xrpc_base pds)) id pw = Raise e ->
                      fst (login_flow w raw st) = Ok None)))).
Proof.
  intros id.
  destruct (login_flow_cases w raw st)
    as [[_ Hrun] | [(_ & _ & Hrun) | (line & rest & _ & Es & Hrun)]].
  - rewrite Hrun. exists []. split; [now rewrite app_nil_r|]. left.
    split; [reflexivity | discriminate].
  - rewrite Hrun. exists [EvGetpass password_prompt]. split; [reflexivity|].
    left. split; [reflexivity | discriminate].
  - cbn zeta in Hrun. fold id in Hrun.
    set (st_pw := {| stdin := rest;
                     trace := trace st ++ [EvGetpass password_prompt] |}) in *.
    destruct Hrun as [[_ Hrun] | [_ Hrun]].
    + rewrite Hrun. exists [EvGetpass password_prompt]. split; [reflexivity|].
      left. split; [reflexivity | discriminate].
    + destruct (client_login w (trace st_pw) None id (strip line)) as [lo|e].
      * rewrite Hrun.
        exists [EvGetpass password_prompt; EvLogin None id (strip line)].
        split; [cbn; now rewrite <- app_assoc|].
        right. left. now exists (strip line).
      * rewrite Hrun.
        set (st1 := extend st_pw [EvLogin None id (strip line)]).
        destruct (login_via_pds_cases w id id (strip line) st1)
          as [(delta & Hs & Hl & _)
             | (d & pds & st3 & delta & Hdisc & Hst3 & Hl & Hpds)].
        -- exists ([EvGetpass password_prompt; EvLogin None id (strip line)]
                   ++ delta)%list.
           rewrite Hs. split; [cbn; now rewrite <- !app_assoc|].
           right. left. exists (strip line).
           rewrite logins_app, (logins_lookups delta Hl). reflexivity.
        -- exists ([EvGetpass password_prompt; EvLogin None id (strip line)]
                   ++ delta
                   ++ [EvLogin (Some (xrpc_base pds)) id (strip line)])%list.
           rewrite Hpds. cbn [fst snd]. subst st3.
           split; [cbn; now rewrite <- !app_assoc|].
           right. right.
           exists (strip line), d, pds, st1, (extend st1 delta),
             ([EvGetpass password_prompt; EvLogin None id (strip line)] ++ delta)%list.
           split; [|split; [exact Hdisc|split; [|split]]].
           ++ rewrite !logins_app, (logins_lookups delta Hl). reflexivity.
           ++ cbn. now rewrite <- !app_assoc.
           ++ now rewrite <- app_assoc.
           ++ intros e' He'. now rewrite He'.
Qed.

End LoginFlow.

(** C2. Every run of [login_flow] makes no login attempt, or only the one
    against the default service, or that one followed by one against the
    discovered PDS.  In the last case resolution has produced a DID, a DID
    document and a PDS endpoint, the second attempt is the last event of the
    run, and when it fails the flow returns [None].  And when the default
    attempt has failed and the document yields no PDS endpoint, the flow
    returns [None] with only the default attempt made. *)
Theorem login_flow_at_most_two_logins (w : World) (raw : string) (st : state) :
  let id := identifier_for_login raw in
  (exists delta,
      trace (snd (login_flow w raw st)) = (trace st ++ delta)%list
      /\ ((logins delta = []
           /\ forall session, fst (login_flow w raw st) <> Ok (Some session))
          \/ (exists pw, logins delta = [EvLogin None id pw])
          \/ (exists pw d pds st1 st3 before,
                logins delta = [EvLogin None id pw;
                                EvLogin (Some (xrpc_base pds)) id pw]
                /\ discovers_pds w id st1 d pds st3
                /\ trace st3 = (trace st ++ before)%list
                /\ delta = (before ++ [EvLogin (Some (xrpc_base pds)) id pw])%list
                /\ (forall e,
                      client_login w (trace st3) (Some (xrpc_base pds)) id pw = Raise e ->
                      fst (login_flow w raw st) = Ok None))))
  /\ (forall line rest e d st2 doc st3 o,
        strip raw <> EmptyString -> stdin st = line :: rest ->
        strip line <> EmptyString ->
        let pw := strip line in
        let st_pw := {| stdin := rest;
                        trace := trace st ++ [EvGetpass password_prompt] |} in
        let st1 := extend st_pw [EvLogin None id pw] in
        client_login w (trace st_pw) None id pw = Raise e ->
        resolves_did w id st1 d st2 -> d <> EmptyString ->
        fetch_did_document w d st2 = (Ok doc, st3) -> Py.truthy doc = true ->
        extract_pds_from_did_doc doc d = Ok o -> Py.truthy_opt o = false ->
        login_flow w raw st = (Ok None, st3)
        /\ exists delta, trace st3 = (trace st ++ delta)%list
                         /\ logins delta = [EvLogin None id pw]).
Proof.
  intros id. split; [exact (login_flow_logins w raw st)|].
  intros line rest e d st2 doc st3 o Hraw Es Hline pw st_pw st1 Hlogin
    Hres Hd Hf Tdoc Hx To.
  destruct (login_flow_cases w raw st)
    as [[Hempty _] | [(_ & Hnil & _) | (line' & rest' & _ & Es' & Hrun)]];
    [contradiction | congruence |].
  rewrite Es in Es'. injection Es' as <- <-.
  cbn zeta in Hrun. fold id pw st_pw st1 in Hrun.
  destruct Hrun as [[Hempty _] | [_ Hrun]]; [contradiction|].
  rewrite Hlogin in Hrun.
  rewrite (login_via_pds_no_endpoint w id id pw d st1 st2 st3 doc o
             Hres Hd Hf Tdoc Hx To) in Hrun.
  split; [exact Hrun|].
  destruct (discovery_lookups w id d st1 st2 st3 doc Hres Hf) as (delta & -> & Hl).
  exists ([EvGetpass password_prompt; EvLogin None id pw] ++ delta)%list.
  split; [cbn; now rewrite <- !app_assoc|].
  rewrite logins_app, (logins_lookups delta Hl). reflexivity.
Qed.

Lemma login_flow_at_most_two_logins_witness :
  exists st3,
    login_flow (scenario_world "/") "bob.example.com" (typing ["pw"]) = (Ok None, st3)
    /\ logins (trace st3) = [EvLogin None "bob.example.com" "pw"].
Proof.
  pose proof (proj2 (login_flow_at_most_two_logins (scenario_world "/")
                       "bob.example.com" (typing ["pw"]))) as H.
  edestruct (H "pw" [] (OtherError "401 Unauthorized") "did:plc:xyz")
    as (Hrun & delta & Htr & Hl).
  - discriminate.
  - reflexivity.
  - discriminate.
  - reflexivity.
  - reflexivity.
  - discriminate.
  - reflexivity.
  - reflexivity.
  - reflexivity.
  - reflexivity.
  - eexists. split; [exact Hrun | reflexivity].
Defined.

(** C3. After a successful login the session DID is the DID the client
    reports for itself ([client.me.did]) when that is truthy.  When it is
    not: a client of the discovered PDS gets the DID found by resolution; a
    client of the default service gets the DID entry of the profile the
    login returned if that is truthy, and the login identifier otherwise. *)
Theorem login_flow_session_did (w : World) (raw : string) (st st' : state)
    (client : Client) (user_did : pyval) :
  login_flow w raw st = (Ok (Some (client, user_did)), st') ->
  let id := identifier_for_login raw in
  (Py.truthy (me_did client) = true -> user_did = me_did client)
  /\ (Py.truthy (me_did client) = false ->
      match base_url client with
      | Some target =>
          exists st1 d pds st3,
            discovers_pds w id st1 d pds st3
            /\ target = xrpc_base pds
            /\ user_did = PStr d
      | None =>
          exists tr pw lo,
            client_login w tr None id pw = Ok lo
            /\ me_did client = lo_me_did lo
            /\ user_did = (if Py.truthy (profile_did (lo_profile lo))
                           then profile_did (lo_profile lo)
                           else PStr id)
      end).
Proof.
  intros Hrun id.
  destruct (login_flow_cases w raw st)
    as [[_ Hc] | [(_ & _ & Hc) | (line & rest & _ & Es & Hc)]];
    try (rewrite Hrun in Hc; discriminate Hc).
  cbn zeta in Hc. fold id in Hc.
  destruct Hc as [[_ Hc] | [_ Hc]]; [rewrite Hrun in Hc; discriminate Hc|].
  rewrite Hrun in Hc.
  match type of Hc with
  | context [client_login w ?tr None id ?pw] =>
      destruct (client_login w tr None id pw) as [lo|e] eqn:El
  end.
  - injection Hc as -> -> _. cbn [me_did base_url]. split.
    + intros T. now rewrite T.
    + intros T. rewrite T. eexists _, _, lo.
      split; [exact El|]. split; reflexivity.
  - match type of Hc with
    | _ = login_via_pds w id id ?pw ?st1 =>
        destruct (login_via_pds_cases w id id pw st1)
          as [(delta & _ & _ & [Hf | [e' Hf]])
             | (d & pds & st3 & delta & Hdisc & _ & _ & Hpds)];
        try (rewrite <- Hc in Hf; discriminate Hf)
    end.
    rewrite Hpds in Hc.
    destruct (client_login w (trace st3) (Some (xrpc_base pds)) id (strip line))
      as [lo|e'']; [|discriminate Hc].
    injection Hc as -> -> _. cbn [me_did base_url]. unfold Py.or_. split.
    + intros T. now rewrite T.
    + intros T. rewrite T. eexists _, d, pds, st3.
      split; [exact Hdisc|]. split; reflexivity.
Qed.

Lemma login_flow_session_did_witness :
  exists st',
    login_flow (scenario_world "https://pds.example/") "bob.example.com" (typing ["pw"])
    = (Ok (Some ({| base_url := Some "https://pds.example/xrpc"; me_did := PNone |},
                 PStr "did:plc:xyz")), st')
    /\ exists st1 pds st3,
         discovers_pds (scenario_world "https://pds.example/") "bob.example.com"
           st1 "did:plc:xyz" pds st3.
Proof.
  assert (Hrun :
    login_flow (scenario_world "https://pds.example/") "bob.example.com" (typing ["pw"])
    = (Ok (Some ({| base_url := Some "https://pds.example/xrpc"; me_did := PNone |},
                 PStr "did:plc:xyz")),
       snd (login_flow (scenario_world "https://pds.example/") "bob.example.com"
              (typing ["pw"])))) by reflexivity.
  pose proof (proj2 (login_flow_session_did _ _ _ _ _ _ Hrun) eq_refl) as H.
  cbn [base_url] in H. destruct H as (st1 & d & pds & st3 & Hdisc & _ & Hd).
  injection Hd as <-.
  eexists. split; [exact Hrun|]. now exists st1, pds, st3.
Defined.

(** ** The base URL of a login *)

Section Targets.

Variable w : World.

Lemma scan_by_id_no_slash (items : list pyval) (did e : string) :
  scan_by_id items did = Ok (Some e) -> endswith e "/" = false.
Proof.
  induction items as [|s items IH]; cbn [scan_by_id]; [discriminate|].
  destruct s; try discriminate.
  destruct (sid_matches _ did) as [[|]|]; cbn [rbind]; try discriminate; [|exact IH].
  destruct (Py.or_ _ _); try exact IH.
  destruct (negb _); [|exact IH]. intros [= <-]. apply rstrip_slash_no_trailing.
Qed.

Lemma scan_http_no_slash (items : list pyval) (e : string) :
  scan_http items = Ok (Some e) -> endswith e "/" = false.
Proof.
  induction items as [|s items IH]; cbn [scan_http]; [discriminate|].
  destruct s; try discriminate.
  destruct (Py.or_ _ _); try exact IH.
  destruct (startswith _ _); [|exact IH]. intros [= <-]. apply rstrip_slash_no_trailing.
Qed.

(** Whatever the document, an extracted endpoint has no trailing slash. *)
Lemma extract_pds_no_slash (doc : pyval) (did e : string) :
  extract_pds_from_did_doc doc did = Ok (Some e) -> endswith e "/" = false.
Proof.
  unfold extract_pds_from_did_doc.
  destruct (Py.get doc "service") as [s1|]; cbn [rbind]; [|discriminate].
  destruct (if Py.truthy s1 then _ else _) as [svc|]; cbn [rbind]; [|discriminate].
  destruct (negb (Py.truthy svc)); [discriminate|].
  destruct (Py.iter svc) as [items|]; cbn [rbind]; [|discriminate].
  destruct (scan_by_id items did) as [[ep|]|] eqn:E1; cbn [rbind]; [| |discriminate].
  - intros [= <-]. exact (scan_by_id_no_slash _ _ _ E1).
  - apply scan_http_no_slash.
Qed.

Lemma xrpc_base_ends (base : string) : endswith (xrpc_base base) "/xrpc" = true.
Proof.
  unfold xrpc_base. destruct (endswith base "/xrpc") eqn:E; cbn [negb];
    [exact E | apply endswith_app].
Qed.

(** The target of a login against an extracted endpoint. *)
Lemma xrpc_base_of_endpoint (pds : string) :
  endswith pds "/" = false ->
  xrpc_base pds = if endswith pds "/xrpc" then pds else pds ++ "/xrpc".
Proof.
  intros H. unfold xrpc_base. destruct (endswith pds "/xrpc"); cbn [negb];
    [reflexivity | now rewrite rstrip_slash_fixed].
Qed.

End Targets.

(** C9 (as the code has it).  Given a non-empty base URL, [try_login] builds
    its client with that URL if it ends in "/xrpc", and otherwise with the
    URL without its trailing slashes and with "/xrpc" appended.  So the
    login against a discovered PDS goes to the endpoint itself when the
    endpoint ends in "/xrpc", and to the endpoint with "/xrpc" appended
    otherwise; either way the URL used ends in "/xrpc". *)
Theorem try_login_target_xrpc (w : World) :
  (forall base id pw st,
      base <> EmptyString ->
      exists cp,
        try_login w (Some base) id pw st
        = (Ok cp, extend st [EvLogin (Some (xrpc_base base)) id pw])
        /\ forall client, fst cp = Some client ->
                          base_url client = Some (xrpc_base base))
  /\ (forall base,
        xrpc_base base = (if endswith base "/xrpc" then base
                          else rstrip_slash base ++ "/xrpc")
        /\ endswith (xrpc_base base) "/xrpc" = true)
  /\ (forall raw st delta target id pw,
        trace (snd (login_flow w raw st)) = (trace st ++ delta)%list ->
        In (EvLogin (Some target) id pw) delta ->
        exists d pds st1 st3,
          discovers_pds w (identifier_for_login raw) st1 d pds st3
          /\ target = (if endswith pds "/xrpc" then pds else pds ++ "/xrpc")
          /\ endswith target "/xrpc" = true).
Proof.
  split; [|split].
  - intros base id pw st Hb. rewrite try_login_run. unfold login_target.
    apply String.eqb_neq in Hb. rewrite Hb. cbn [negb].
    eexists. split; [reflexivity|].
    destruct (client_login w _ _ id pw); cbn [fst]; [now intros c [= <-] | discriminate].
  - intros base. split; [|apply xrpc_base_ends].
    unfold xrpc_base. now destruct (endswith base "/xrpc").
  - intros raw st delta target id pw Htr Hin.
    assert (Hl : In (EvLogin (Some target) id pw) (logins delta)).
    { apply filter_In. now split. }
    destruct (login_flow_logins w raw st) as (delta' & Htr' & Hcases).
    rewrite Htr in Htr'. apply app_inv_head in Htr'. subst delta'.
    destruct Hcases as [[Hnil _] | [[pw' H1] | (pw' & d & pds & st1 & st3 & before & H2 & Hdisc & _)]].
    + rewrite Hnil in Hl. contradiction.
    + rewrite H1 in Hl. destruct Hl as [Hl|[]]. discriminate Hl.
    + rewrite H2 in Hl. destruct Hl as [Hl|[Hl|[]]]; [discriminate Hl|].
      injection Hl as <- _ _.
      exists d, pds, st1, st3. split; [exact Hdisc|].
      destruct Hdisc as (st2 & doc & _ & _ & _ & _ & Hx & _).
      rewrite <- (xrpc_base_of_endpoint pds (extract_pds_no_slash doc d pds Hx)).
      split; [reflexivity | apply xrpc_base_ends].
Qed.

Lemma try_login_target_xrpc_witness :
  exists cp,
    try_login offline_world (Some "https://pds.example/") "bob.example.com" "pw" (typing [])
    = (Ok cp, extend (typing [])
                [EvLogin (Some "https://pds.example/xrpc") "bob.example.com" "pw"]).
Proof.
  destruct (proj1 (try_login_target_xrpc offline_world)
              "https://pds.example/" "bob.example.com" "pw" (typing []))
    as (cp & Hcp & _); [discriminate|].
  now exists cp.
Defined.

(** C9 as the spec states it fails: when the document's PDS endpoint is
    "https://pds.example/xrpc" the login goes to that very URL, not to
    "https://pds.example/xrpc/xrpc". *)
Lemma pds_login_against_bare_endpoint :
  ~ pds_login_appends_xrpc (scenario_world "https://pds.example/xrpc")
      "bob.example.com" (typing ["pw"]).
Proof.
  intros H.
  pose (st1 := {| stdin := [];
                  trace := [EvGetpass password_prompt;
                            EvLogin None "bob.example.com" "pw"] |}).
  specialize (H "did:plc:xyz" "https://pds.example/xrpc"
                st1 (extend st1
                   [dns_request "bob.example.com"; well_known_request "example.com";
                    EvHttpGet "https://plc.directory/did:plc:xyz" [] 6])
                "https://pds.example/xrpc" "bob.example.com" "pw").
  assert (Hneq : "https://pds.example/xrpc" <> "https://pds.example/xrpc" ++ "/xrpc")
    by discriminate.
  apply Hneq, H.
  - eexists _, _. split; [reflexivity|]. split; [discriminate|].
    split; [reflexivity|]. split; [reflexivity|]. split; [reflexivity|]. discriminate.
  - vm_compute. tauto.
Qed.

(** ** Where the code departs from its own intent *)

(** Whatever is typed, a leading "@" stays in the login identifier. *)
Lemma identifier_keeps_at (raw : string) :
  startswith (strip raw) "@" = true ->
  startswith (identifier_for_login raw) "@" = true.
Proof.
  unfold identifier_for_login, assume_bsky_if_bare, maybe_assume_bsky.
  intros H. destruct (negb _ && negb _); [|exact H].
  destruct (startswith _ "did:"); [exact H|].
  destruct (negb _); [|exact H].
  destruct (strip raw) as [|a t]; [discriminate H|].
  unfold startswith in *. cbn [append].
  change (String.prefix "@" (String a (t ++ ".bsky.social")))
    with (if ascii_dec "@" a then String.prefix EmptyString (t ++ ".bsky.social")
          else false).
  change (String.prefix "@" (String a t))
    with (if ascii_dec "@" a then String.prefix EmptyString t else false) in H.
  destruct (ascii_dec "@" a); [|discriminate H].
  now destruct (t ++ ".bsky.social").
Qed.

(** C7. The login identifier keeps a leading "@": "@bob.example.com" is
    passed as typed to both login attempts (while resolution, which strips
    it, asks example.com), and "@alice" becomes "@alice.bsky.social". *)
Theorem login_identifier_keeps_leading_at :
  identifier_for_login "@bob.example.com" = "@bob.example.com"
  /\ identifier_for_login "@alice" = "@alice.bsky.social"
  /\ logins (trace (snd (login_flow (scenario_world "https://pds.example/")
                           "@bob.example.com" (typing ["pw"]))))
     = [EvLogin None "@bob.example.com" "pw";
        EvLogin (Some "https://pds.example/xrpc") "@bob.example.com" "pw"]
  /\ In (well_known_request "example.com")
        (trace (snd (login_flow (scenario_world "https://pds.example/")
                       "@bob.example.com" (typing ["pw"])))).
Proof.
  repeat split. vm_compute. tauto.
Qed.

(** C5. The well-known strategy lets an [IndexError] escape on the handle
    "a/b.c", whatever the network does; the exception goes through
    [resolve_handle_to_did] and ends the program with status 1. *)
Theorem resolve_handle_via_well_known_raises :
  (forall w st, resolve_handle_via_well_known w "a/b.c" st = (Raise IndexError, st))
  /\ resolve_handle_to_did offline_world "a/b.c" (typing [])
     = (Raise IndexError, extend (typing []) [dns_request "a/b.c"])
  /\ exists st', program offline_world 2 (typing ["a/b.c"; "pw"]) = Some (1, st').
Proof.
  split; [reflexivity|]. split; [reflexivity|]. eexists. reflexivity.
Qed.

(** ** Empty inputs *)

Section EmptyInputs.

Variable w : World.

Lemma lstrip_by_idem (p : ascii -> bool) (s : string) :
  lstrip_by p (lstrip_by p s) = lstrip_by p s.
Proof.
  induction s as [|a t IH]; [reflexivity|].
  cbn [lstrip_by]. destruct (p a) eqn:E; [exact IH|].
  cbn [lstrip_by]. now rewrite E.
Qed.

Lemma rstrip_by_idem (p : ascii -> bool) (s : string) :
  rstrip_by p (rstrip_by p s) = rstrip_by p s.
Proof.
  induction s as [|a t IH]; [reflexivity|].
  rewrite rstrip_by_cons.
  destruct ((rstrip_by p t =? EmptyString) && p a) eqn:E; [reflexivity|].
  now rewrite rstrip_by_cons, IH, E.
Qed.

(** Stripping on the left keeps a string that is stripped on the right so. *)
Lemma rstrip_by_lstrip_by (p : ascii -> bool) (s : string) :
  rstrip_by p s = s -> rstrip_by p (lstrip_by p s) = lstrip_by p s.
Proof.
  induction s as [|a t IH]; intros H; [reflexivity|].
  cbn [lstrip_by]. destruct (p a) eqn:E; [|exact H].
  apply IH. rewrite rstrip_by_cons in H.
  destruct ((rstrip_by p t =? EmptyString) && p a); [discriminate H|].
  now injection H.
Qed.

(** [strip] is idempotent: [main] strips the handle and [login_flow]
    strips it again. *)
Lemma strip_idem (s : string) : strip (strip s) = strip s.
Proof.
  unfold strip.
  rewrite (rstrip_by_lstrip_by isspace (rstrip_by isspace s) (rstrip_by_idem _ _)).
  apply lstrip_by_idem.
Qed.

(** An empty password ends [login_flow] at once. *)
Lemma login_flow_empty_password (raw line : string) (rest : list string)
    (tr : list event) :
  strip raw <> EmptyString -> strip line = EmptyString ->
  login_flow w raw {| stdin := line :: rest; trace := tr |}
  = (Ok None, {| stdin := rest; trace := tr ++ [EvGetpass password_prompt] |}).
Proof.
  intros Hraw Hline. unfold login_flow.
  apply String.eqb_neq in Hraw. rewrite Hraw.
  unfold bind, getpass. cbn [stdin trace]. now rewrite Hline.
Qed.

End EmptyInputs.

(** C8 (as the code has it).  An empty handle makes [main] ask for the handle
    again, with nothing else done.  An empty password makes [login_flow]
    return [None] with no request made and no second password prompt;
    [main] then asks whether to try another handle, goes back to the handle
    prompt on "y" or "yes", and ends otherwise. *)
Theorem empty_inputs_handling (w : World) :
  (forall fuel line rest tr,
      strip line = EmptyString ->
      main_loop w (S fuel) {| stdin := line :: rest; trace := tr |}
      = main_loop w fuel {| stdin := rest; trace := tr ++ [EvInput handle_prompt] |})
  /\ (forall raw line rest tr,
        strip raw <> EmptyString -> strip line = EmptyString ->
        login_flow w raw {| stdin := line :: rest; trace := tr |}
        = (Ok None, {| stdin := rest; trace := tr ++ [EvGetpass password_prompt] |}))
  /\ (forall fuel handle line answer rest tr,
        strip handle <> EmptyString -> strip line = EmptyString ->
        let st' := {| stdin := rest;
                      trace := tr ++ [EvInput handle_prompt;
                                      EvGetpass password_prompt;
                                      EvInput try_another_prompt] |} in
        main_loop w (S fuel)
          {| stdin := handle :: line :: answer :: rest; trace := tr |}
        = if (lower (strip answer) =? "y") || (lower (strip answer) =? "yes")
          then main_loop w fuel st'
          else Some (Ok tt, st')).
Proof.
  split; [|split].
  - intros fuel line rest tr Hline. cbn [main_loop].
    unfold main_round, bind, input. cbn [stdin trace]. now rewrite Hline.
  - apply login_flow_empty_password.
  - intros fuel handle line answer rest tr Hh Hline st'. cbn [main_loop].
    unfold main_round. unfold bind at 1. unfold input at 1. cbn [stdin trace].
    pose proof Hh as Hh'. apply String.eqb_neq in Hh'. rewrite Hh'.
    unfold bind at 1.
    rewrite login_flow_empty_password; [|now rewrite strip_idem | exact Hline].
    unfold bind, input, ret. cbn [stdin trace].
    rewrite <- !app_assoc. cbn [app]. fold st'.
    now destruct ((lower (strip answer) =? "y") || (lower (strip answer) =? "yes")).
Qed.

Lemma empty_inputs_handling_witness :
  main_loop offline_world 2 (typing ["  "; "alice.bsky.social"; ""; "n"])
  = Some (Ok tt,
          {| stdin := [];
             trace := [EvInput handle_prompt; EvInput handle_prompt;
                       EvGetpass password_prompt; EvInput try_another_prompt] |}).
Proof.
  unfold typing.
  rewrite (proj1 (empty_inputs_handling offline_world) 1 "  "); [|reflexivity].
  rewrite (proj2 (proj2 (empty_inputs_handling offline_world)) 0
             "alice.bsky.social" "" "n" []); [reflexivity | discriminate | reflexivity].
Defined.

(** C8 as the spec states it fails for the password: after an empty
    password the run goes on to "Try another handle?" and, on "n", ends;
    the password is never asked for again. *)
Lemma empty_password_not_reprompted :
  ~ empty_password_reprompts offline_world 3 "alice.bsky.social" ["n"].
Proof.
  intros H. destruct (H _ _ eq_refl) as [more Hmore].
  vm_compute in Hmore. discriminate Hmore.
Qed.

(** ** The interactive loop ends *)

Section Termination.

Variable w : World.

Lemma confirm_loop_stdin (prompt : string) (lines : list string) (tr : list event) :
  length (stdin (snd (confirm_loop prompt lines tr))) <= length lines.
Proof.
  revert tr. induction lines as [|x rest IH]; intros tr; cbn [confirm_loop].
  - cbn. lia.
  - destruct (_ || _); [cbn; lia|].
    destruct (_ || _); [cbn; lia|].
    specialize (IH (tr ++ [EvInput (prompt ++ " (y/N): ")])%list). cbn [length]. lia.
Qed.

Lemma follow_self_stdin (client : Client) (user_did : pyval) (st : state) :
  stdin (snd (follow_self w client user_did st)) = stdin st.
Proof.
  unfold follow_self, try_except, bind, sdk_create_record, ret.
  now destruct (create_record w _ _ _).
Qed.

Lemma logout_quietly_stdin (client : Client) (st : state) :
  stdin (snd (logout_quietly w client st)) = stdin st.
Proof.
  unfold logout_quietly, try_except, sdk_logout, ret.
  now destruct (client_logout w _ _).
Qed.

(** [login_flow] reads at most the lines that are there. *)
Lemma login_flow_stdin (raw : string) (st : state) :
  length (stdin (snd (login_flow w raw st))) <= length (stdin st).
Proof.
  destruct (login_flow_cases w raw st)
    as [[_ Hrun] | [(_ & _ & Hrun) | (line & rest & _ & Es & Hrun)]].
  - rewrite Hrun. cbn. lia.
  - rewrite Hrun. cbn. lia.
  - cbn zeta in Hrun. rewrite Es. cbn [length].
    destruct Hrun as [[_ Hrun] | [_ Hrun]]; [rewrite Hrun; cbn; lia|].
    rewrite Hrun.
    match goal with
    | |- context [client_login w ?tr None ?id ?pw] =>
        destruct (client_login w tr None id pw) as [lo|e]; [cbn; lia|]
    end.
    match goal with
    | |- context [login_via_pds w ?a ?b ?c ?st1] =>
        destruct (login_via_pds_cases w a b c st1)
          as [(delta & Hs & _) | (d & pds & st3 & delta & _ & -> & _ & Hs)];
        rewrite Hs; cbn; lia
    end.
Qed.

(** A round of the loop either ends in an exception or uses up a line. *)
Lemma main_round_consumes (st st' : state) (r : result loop_step) :
  main_round w st = (r, st') ->
  (exists e, r = Raise e) \/ length (stdin st') < length (stdin st).
Proof.
  unfold main_round. unfold bind at 1. unfold input at 1.
  destruct (stdin st) as [|h rest] eqn:Es.
  { intros [= <- <-]. left. now eexists. }
  set (st0 := {| stdin := rest; trace := trace st ++ [EvInput handle_prompt] |}).
  assert (H0 : length (stdin st0) < S (length rest)) by (cbn; lia).
  cbn [length].
  destruct (strip h =? EmptyString).
  { intros [= <- <-]. right. exact H0. }
  unfold bind at 1.
  pose proof (login_flow_stdin (strip h) st0) as Hl.
  destruct (login_flow w (strip h) st0) as [[[[client user_did]|]|e] st1];
    cbn [snd] in Hl.
  - unfold bind at 1.
    pose proof (confirm_loop_stdin "Are you sure you want to proceed"
                  (stdin st1) (trace st1)) as Hc.
    unfold confirm at 1.
    destruct (confirm_loop _ (stdin st1) (trace st1)) as [[go|e] st2]; cbn [snd] in Hc.
    2:{ intros [= <- <-]. left. now eexists. }
    destruct go; cbn [negb].
    + unfold bind at 1.
      pose proof (follow_self_stdin client user_did st2) as Hf.
      destruct (follow_self w client user_did st2) as [[ok|e] st3]; cbn [snd] in Hf.
      2:{ intros [= <- <-]. left. now eexists. }
      unfold bind at 1.
      pose proof (logout_quietly_stdin client st3) as Ho.
      destruct (logout_quietly w client st3) as [[u|e] st4]; cbn [snd] in Ho.
      2:{ intros [= <- <-]. left. now eexists. }
      unfold bind, confirm.
      pose proof (confirm_loop_stdin "Follow another account?"
                    (stdin st4) (trace st4)) as Hc2.
      destruct (confirm_loop _ (stdin st4) (trace st4)) as [[again|e] st5];
        cbn [snd] in Hc2; rewrite ?Ho, ?Hf in Hc2; unfold ret;
        intros [= <- <-]; first [right; lia | left; now eexists].
    + unfold bind at 1.
      pose proof (logout_quietly_stdin client st2) as Ho.
      destruct (logout_quietly w client st2) as [[u|e] st3]; cbn [snd] in Ho.
      2:{ intros [= <- <-]. left. now eexists. }
      unfold bind, confirm.
      pose proof (confirm_loop_stdin "Try another account?"
                    (stdin st3) (trace st3)) as Hc2.
      destruct (confirm_loop _ (stdin st3) (trace st3)) as [[again|e] st4];
        cbn [snd] in Hc2; rewrite ?Ho, ?Hf in Hc2; unfold ret;
        intros [= <- <-]; first [right; lia | left; now eexists].
  - unfold bind, input.
    destruct (stdin st1) as [|a rest1] eqn:E1.
    + intros [= <- <-]. left. now eexists.
    + destruct (_ || _); intros [= <- <-]; right; cbn in *; lia.
  - intros [= <- <-]. left. now eexists.
Qed.

(** With more rounds allowed than there are lines to read, the loop of
    [main] reaches its end. *)
Lemma main_loop_total (fuel : nat) (st : state) :
  length (stdin st) < fuel -> main_loop w fuel st <> None.
Proof.
  revert st. induction fuel as [|fuel IH]; intros st Hlen; [lia|].
  cbn [main_loop].
  destruct (main_round w st) as [[[|]|e] st'] eqn:Er; try discriminate.
  apply IH. destruct (main_round_consumes st st' _ Er) as [[e He]|Hlt];
    [discriminate He | lia].
Qed.

End Termination.

(** * Further properties of the code *)

(** ** Handles and domains *)

Section Domains.

Variable w : World.

Lemma startswith_empty (s : string) : String.prefix EmptyString s = true.
Proof. now destruct s. Qed.

Lemma prefix_cons (c a : ascii) (p s : string) :
  String.prefix (String c p) (String a s)
  = if ascii_dec c a then String.prefix p s else false.
Proof. reflexivity. Qed.

Lemma strip_at_at (h : string) : strip_at (String "@" h) = h.
Proof.
  unfold strip_at, startswith. rewrite prefix_cons.
  destruct (ascii_dec "@" "@") as [_|Hn]; [|now elim Hn].
  now rewrite startswith_empty.
Qed.

Lemma strip_at_id (h : string) : startswith h "@" = false -> strip_at h = h.
Proof. intros H. unfold strip_at. now rewrite H. Qed.

(** A handle is what [strip_at] leaves, with or without one "@" before. *)
Lemma strip_at_cases (h : string) : h = strip_at h \/ h = String "@" (strip_at h).
Proof.
  unfold strip_at. destruct (startswith h "@") eqn:E; [|now left].
  right. destruct h as [|a t]; [discriminate E|].
  unfold startswith in E. rewrite prefix_cons in E.
  destruct (ascii_dec "@" a) as [<-|]; [reflexivity | discriminate E].
Qed.

Lemma str_in_dot_strip_at (h : string) : str_in "." (strip_at h) = str_in "." h.
Proof.
  destruct (strip_at_cases h) as [E|E]; rewrite E at 2; [reflexivity|].
  now rewrite str_in_char_cons.
Qed.

(** Splitting at the first separator undoes joining with it. *)
Lemma split_once_join (c : ascii) (a b : string) :
  str_in (String c EmptyString) a = false ->
  split_once c (a ++ String c b) = [a; b].
Proof.
  induction a as [|x a IH]; intros H; cbn [append split_once].
  - now rewrite Ascii.eqb_refl.
  - rewrite str_in_char_cons in H. apply orb_false_iff in H as [Hx Ha].
    now rewrite Hx, (IH Ha).
Qed.

End Domains.

(** X1. Resolution does not see one leading "@": the cascade run on "@" ++ h
    is the cascade run on h, for every h that does not itself start with
    "@". *)
Theorem resolve_handle_to_did_ignores_at (w : World) (h : string) (st : state) :
  startswith h "@" = false ->
  resolve_handle_to_did w (String "@" h) st = resolve_handle_to_did w h st.
Proof.
  intros H. unfold resolve_handle_to_did.
  now rewrite strip_at_at, (strip_at_id h H).
Qed.

Lemma resolve_handle_to_did_ignores_at_witness :
  resolve_handle_to_did (scenario_world "https://pds.example/") "@bob.example.com"
    (typing [])
  = resolve_handle_to_did (scenario_world "https://pds.example/") "bob.example.com"
      (typing []).
Proof.
  apply (resolve_handle_to_did_ignores_at _ "bob.example.com"). reflexivity.
Defined.

(** X2. For a handle that is not DID-prefixed and, once its "@" is gone, has
    the form label.rest with no "." in the label and no "/" anywhere, the DNS
    strategy and the well-known strategy work on the same domain: rest, that
    is everything after the first label and nothing less. *)
Theorem strategies_use_rest_after_first_label (handle label rest : string) :
  strip_at handle = label ++ String "." rest ->
  str_in "." label = false ->
  str_in "/" (strip_at handle) = false ->
  startswith handle "did:" = false ->
  dns_query_name handle = rest
  /\ well_known_domain (strip_at handle) = Ok rest.
Proof.
  intros Hraw Hlabel Hslash Hdid.
  assert (Hdot : str_in "." (strip_at handle) = true).
  { rewrite Hraw. apply str_in_app_r. rewrite str_in_char_cons.
    now rewrite Ascii.eqb_refl. }
  split.
  - unfold dns_query_name. rewrite <- str_in_dot_strip_at, Hdot, Hdid. cbn [negb andb].
    now rewrite Hraw, (split_once_join "." label rest Hlabel).
  - unfold well_known_domain. rewrite Hslash, Hdot.
    now rewrite Hraw, (split_once_join "." label rest Hlabel).
Qed.

Lemma strategies_use_rest_after_first_label_witness :
  dns_query_name "@alice.pds.example.com" = "pds.example.com"
  /\ well_known_domain "alice.pds.example.com" = Ok "pds.example.com".
Proof.
  apply (strategies_use_rest_after_first_label "@alice.pds.example.com"
           "alice" "pds.example.com"); reflexivity.
Defined.

(** X15. Whatever is typed, the identifier [login_flow] logs in with is
    DID-prefixed or contains a ".": a bare name never reaches the
    service. *)
Theorem identifier_for_login_did_or_dotted (raw : string) :
  startswith (identifier_for_login raw) "did:" = true
  \/ str_in "." (identifier_for_login raw) = true.
Proof.
  unfold identifier_for_login. rewrite assume_bsky_if_bare_eq.
  unfold maybe_assume_bsky.
  destruct (startswith (strip raw) "did:") eqn:Hd; [now left|].
  destruct (str_in "." (strip raw)) eqn:Hp; cbn [negb]; [now right|].
  right. now apply str_in_app_r.
Qed.

(** ** The strategies one by one *)

Section StrategyResults.

Variable w : World.

(** The answer loop gives [None] or a string. *)
Lemma dns_first_did_none_or_str (answers : list string) :
  exists v, dns_first_did answers = Ok v /\ (v = PNone \/ exists s, v = PStr s).
Proof.
  induction answers as [|ans rest IH]; [exists PNone; now split; [|left]|].
  cbn [dns_first_did].
  match goal with
  | |- context [startswith ?t "did="] => set (text := t)
  end.
  destruct (startswith text "did=") eqn:E; [|exact IH].
  apply startswith_did_eq in E.
  pose proof (split_once_pieces "=" text) as Hp. rewrite E in Hp.
  destruct Hp as (a & b & ->). cbn. eexists. split; [reflexivity|]. right. now eexists.
Qed.

End StrategyResults.

(** X3. Without the optional DNS module the DNS strategy returns [None]
    at once, with no query, and the whole cascade makes HTTP requests
    only. *)
Theorem cascade_without_dns_module (w : World) (handle : string) (st : state) :
  dns_module w = false ->
  resolve_handle_via_dns w handle st = (Ok PNone, st)
  /\ exists delta,
       snd (resolve_handle_to_did w handle st) = extend st delta
       /\ forall e, In e delta ->
                    exists url params timeout, e = EvHttpGet url params timeout.
Proof.
  intros Hd. split.
  - unfold resolve_handle_via_dns. now rewrite Hd.
  - unfold resolve_handle_to_did. rewrite Hd. unfold bind at 1, ret at 1.
    cbn [Py.truthy]. cbv beta iota.
    destruct (well_known_domain (strip_at (strip_at handle))) as [domain|e] eqn:Ed.
    + destruct (resolve_handle_via_well_known_total w (strip_at handle) domain st Ed)
        as (v2 & e2 & H2 & He2 & _).
      unfold bind. rewrite H2.
      assert (Hhttp : forall e, In e e2 ->
                exists url params timeout, e = EvHttpGet url params timeout).
      { intros e Hin. destruct He2 as [-> | ->]; [contradiction|].
        destruct Hin as [<-|[]]. unfold well_known_request. now do 3 eexists. }
      destruct (Py.truthy v2).
      * exists e2. now split.
      * destruct (resolve_handle_public_api_total w (strip_at handle) (extend st e2))
          as (v3 & H3 & _).
        rewrite H3. cbn [snd]. rewrite extend_extend. eexists. split; [reflexivity|].
        intros e Hin. apply in_app_or in Hin as [Hin|[<-|[]]]; [now apply Hhttp|].
        unfold public_request. now do 3 eexists.
    + unfold bind, resolve_handle_via_well_known, lift. rewrite Ed. cbn [snd].
      exists []. rewrite extend_nil. split; [reflexivity | contradiction].
Qed.

Lemma cascade_without_dns_module_witness :
  resolve_handle_via_dns no_dns_world "bob.example.com" (typing [])
  = (Ok PNone, typing []).
Proof.
  apply (cascade_without_dns_module no_dns_world "bob.example.com" (typing [])).
  reflexivity.
Defined.

(** X5. The DNS strategy never raises and returns [None] or a string; with
    the DNS module present it makes exactly one TXT query, for
    "_atproto." followed by the query name, with lifetime 3; a query that
    raises, or that has no answer, gives [None]. *)
Theorem resolve_handle_via_dns_result (w : World) (handle : string) (st : state) :
  let name := "_atproto." ++ dns_query_name handle in
  exists v delta,
    resolve_handle_via_dns w handle st = (Ok v, extend st delta)
    /\ (v = PNone \/ exists s, v = PStr s)
    /\ (dns_module w = true -> delta = [EvDnsQuery name 3])
    /\ (forall e, dns_resolve w (trace st) name = Raise e -> v = PNone)
    /\ (dns_resolve w (trace st) name = Ok [] -> v = PNone).
Proof.
  intros name. unfold resolve_handle_via_dns. fold name.
  destruct (dns_module w); cbn [negb].
  - unfold bind, try_except, dns_resolver_resolve, ret, lift.
    destruct (dns_resolve w (trace st) name) as [answers|e] eqn:E.
    + destruct (dns_first_did_none_or_str answers) as (v & Hv & Hshape).
      rewrite Hv. exists v, [EvDnsQuery name 3].
      split; [reflexivity|]. split; [exact Hshape|]. split; [reflexivity|].
      split; [discriminate|]. intros [= ->]. cbn in Hv. now injection Hv.
    + exists PNone, [EvDnsQuery name 3].
      split; [reflexivity|]. split; [now left|]. split; [reflexivity|].
      split; [reflexivity | discriminate].
  - exists PNone, []. unfold ret. rewrite extend_nil.
    split; [reflexivity|]. split; [now left|]. split; [discriminate|].
    split; reflexivity.
Qed.

Lemma resolve_handle_via_dns_result_witness :
  exists v,
    resolve_handle_via_dns offline_world "bob.example.com" (typing [])
    = (Ok v, extend (typing []) [EvDnsQuery "_atproto.example.com" 3]).
Proof.
  destruct (resolve_handle_via_dns_result offline_world "bob.example.com" (typing []))
    as (v & delta & Hrun & _ & Hq & _).
  rewrite (Hq eq_refl) in Hrun. now exists v.
Defined.

(** X6. The public resolver strategy never raises and makes exactly one
    request, to the fixed resolver URL with the handle (without its "@") as
    parameter.  A 200 response whose JSON body is a dict gives the value
    under "did", [None] when the key is missing; a 200 response whose JSON
    body is not a dict, an unparseable body, any other status and a
    transport error all give [None]. *)
Theorem resolve_handle_public_api_result (w : World) (handle : string) (st : state) :
  let answer := requests_get w (trace st) public_resolver_url
                  [("handle", strip_at handle)] in
  exists v,
    resolve_handle_public_api w handle st = (Ok v, extend st [public_request handle])
    /\ (forall r d, answer = Ok r -> status_code r = 200 -> json r = Ok (PDict d) ->
                    v = match Py.assoc d "did" with Some x => x | None => PNone end)
    /\ (forall r payload, answer = Ok r -> status_code r = 200 ->
                          json r = Ok payload -> (forall d, payload <> PDict d) ->
                          v = PNone)
    /\ (forall r e, answer = Ok r -> status_code r = 200 -> json r = Raise e ->
                    v = PNone)
    /\ (forall r, answer = Ok r -> status_code r <> 200 -> v = PNone)
    /\ (forall e, answer = Raise e -> v = PNone).
Proof.
  intros answer.
  unfold resolve_handle_public_api, try_except, bind, requests_get_, ret, lift.
  fold answer. destruct answer as [r|e] eqn:E.
  2:{ exists PNone. repeat split; intros; congruence. }
  destruct (Nat.eqb_spec (status_code r) 200) as [H200|H200].
  2:{ exists PNone. repeat split; intros; congruence. }
  destruct (json r) as [data|e] eqn:Ej.
  2:{ exists PNone. repeat split; intros; congruence. }
  destruct data as [| | | | | |d];
    try (exists PNone; split; [reflexivity|];
         repeat split; intros; try congruence;
         match goal with
         | H : Ok _ = Ok ?r', Hj : json ?r' = Ok (PDict _) |- _ =>
             injection H as <-; rewrite Ej in Hj; discriminate Hj
         end).
  exists (match Py.assoc d "did" with Some x => x | None => PNone end).
  split; [reflexivity|]. repeat split; intros; try congruence.
  all: match goal with
       | H : Ok _ = Ok ?r', Hj : json ?r' = Ok _ |- _ =>
           injection H as <-; rewrite Ej in Hj; injection Hj as <-
       end.
  all: first [reflexivity
             | match goal with Hn : forall d, _ <> PDict d |- _ => now elim (Hn d) end].
Qed.

Lemma resolve_handle_public_api_result_witness :
  resolve_handle_public_api offline_world "@bob.example.com" (typing [])
  = (Ok PNone, extend (typing []) [public_request "@bob.example.com"]).
Proof.
  destruct (resolve_handle_public_api_result offline_world "@bob.example.com"
              (typing [])) as (v & Hrun & _ & _ & _ & _ & Hraise).
  now rewrite (Hraise (OtherError "connection refused") eq_refl) in Hrun.
Defined.

(** X7. The well-known strategy, on a handle whose domain piece is defined:
    with an empty domain piece it returns [None] without any request;
    otherwise it makes exactly one request, to
    https://<domain>/.well-known/atproto-did, and returns the trimmed body
    of a 200 response, possibly the empty string, and [None] on any other
    status or on a transport error. *)
Theorem resolve_handle_via_well_known_result (w : World) (handle domain : string)
    (st : state) :
  well_known_domain (strip_at handle) = Ok domain ->
  let answer := requests_get w (trace st) (well_known_url domain) [] in
  (domain = EmptyString ->
   resolve_handle_via_well_known w handle st = (Ok PNone, st))
  /\ (domain <> EmptyString ->
      resolve_handle_via_well_known w handle st
      = (Ok match answer with
            | Ok r => if (status_code r =? 200)%nat then PStr (strip (text r))
                      else PNone
            | Raise _ => PNone
            end,
         extend st [EvHttpGet (well_known_url domain) [] 4])).
Proof.
  intros Hd answer. unfold resolve_handle_via_well_known, bind, lift. rewrite Hd.
  split; intros Hdom.
  - now rewrite Hdom.
  - apply String.eqb_neq in Hdom. rewrite Hdom.
    unfold try_except, bind, requests_get_, ret. fold answer.
    destruct answer as [r|e]; [|reflexivity].
    now destruct (status_code r =? 200)%nat.
Qed.

Lemma resolve_handle_via_well_known_result_witness :
  resolve_handle_via_well_known offline_world "alice." (typing [])
  = (Ok PNone, typing []).
Proof.
  apply (resolve_handle_via_well_known_result offline_world "alice." ""
           (typing []) eq_refl).
  reflexivity.
Defined.

(** ** Reading the TXT answers *)

Section TxtAnswers.

Lemma rstrip_by_keep_head (p : ascii -> bool) (c : ascii) (t : string) :
  p c = false -> rstrip_by p (String c t) = String c (rstrip_by p t).
Proof. intros H. now rewrite rstrip_by_cons, H, andb_false_r. Qed.

Lemma lstrip_by_keep_head (p : ascii -> bool) (c : ascii) (t : string) :
  p c = false -> lstrip_by p (String c t) = String c t.
Proof. intros H. cbn [lstrip_by]. now rewrite H. Qed.

(** Stripping on the right does not reach beyond a part that survives. *)
Lemma rstrip_by_app (p : ascii -> bool) (a x : string) :
  rstrip_by p x <> EmptyString -> rstrip_by p (a ++ x) = a ++ rstrip_by p x.
Proof.
  intros Hx. induction a as [|c a IH]; [reflexivity|].
  cbn [append]. rewrite rstrip_by_cons, IH.
  destruct (String.eqb_spec (a ++ rstrip_by p x) EmptyString) as [E|E]; [|reflexivity].
  destruct a; [now elim Hx | discriminate E].
Qed.

Lemma string_app_assoc (a b c : string) : (a ++ b) ++ c = a ++ b ++ c.
Proof. induction a as [|x a IH]; cbn [append]; [reflexivity | now rewrite IH]. Qed.

Lemma substring_take (s t : string) : substring 0 (String.length s) (s ++ t) = s.
Proof.
  induction s as [|c s IH]; cbn [String.length append substring].
  - now destruct t.
  - now rewrite IH.
Qed.

Lemma length_app_char (s : string) (c : ascii) :
  String.length (s ++ String c EmptyString) = S (String.length s).
Proof. induction s as [|a s IH]; cbn; [reflexivity | now rewrite IH]. Qed.

(** [s[1:-1]] takes off the first and the last character. *)
Lemma slice_1_m1_wrapped (a c : ascii) (s : string) :
  slice_1_m1 (String a (s ++ String c EmptyString)) = s.
Proof.
  unfold slice_1_m1. rewrite length_app_char. cbn [Nat.sub].
  rewrite Nat.sub_0_r. apply substring_take.
Qed.

Lemma strip_strip_right (s : string) : strip (rstrip_by isspace s) = strip s.
Proof. unfold strip. now rewrite rstrip_by_idem. Qed.

End TxtAnswers.

(** X4. The first TXT answer of the form did=<value> decides: the result is
    the value, trimmed, whether the answer comes bare or wrapped in double
    quotes, and the answers after it are not looked at.  An answer that,
    trimmed, starts neither with "did=" nor with a double quote is
    skipped. *)
Theorem dns_first_did_reads_first_record (value : string) (rest : list string) :
  dns_first_did (("did=" ++ value) :: rest) = Ok (PStr (strip value))
  /\ dns_first_did ((dquote ++ "did=" ++ value ++ dquote) :: rest)
     = Ok (PStr (strip value))
  /\ (forall ans,
        startswith (strip ans) "did=" = false ->
        startswith (strip ans) dquote = false ->
        dns_first_did (ans :: rest) = dns_first_did rest).
Proof.
  split; [|split].
  - cbn [dns_first_did].
    assert (Hs : strip ("did=" ++ value) = "did=" ++ rstrip_by isspace value).
    { unfold strip.
      change ("did=" ++ value) with ("did" ++ String "=" value).
      rewrite rstrip_by_app; rewrite (rstrip_by_keep_head isspace "=" value eq_refl);
        [|discriminate].
      cbn [append]. now rewrite lstrip_by_keep_head. }
    rewrite Hs.
    change (startswith ("did=" ++ rstrip_by isspace value) dquote) with false.
    cbn [andb].
    replace (startswith ("did=" ++ rstrip_by isspace value) "did=") with true
      by (unfold startswith; cbn; now rewrite startswith_empty).
    change (split_once "=" ("did=" ++ rstrip_by isspace value))
      with ["did"; rstrip_by isspace value].
    cbn. now rewrite strip_strip_right.
  - cbn [dns_first_did].
    assert (Hs : strip (dquote ++ "did=" ++ value ++ dquote)
                 = dquote ++ "did=" ++ value ++ dquote).
    { unfold strip, dquote.
      change (String (ascii_of_nat 34) EmptyString ++ "did=" ++ value
              ++ String (ascii_of_nat 34) EmptyString)
        with (String (ascii_of_nat 34) ("did=" ++ value)
              ++ String (ascii_of_nat 34) EmptyString).
      rewrite rstrip_by_app;
        rewrite (rstrip_by_keep_head isspace (ascii_of_nat 34) EmptyString eq_refl);
        [|discriminate].
      cbn [append]. now rewrite lstrip_by_keep_head. }
    rewrite Hs.
    assert (Hq : startswith (dquote ++ "did=" ++ value ++ dquote) dquote
                 && endswith (dquote ++ "did=" ++ value ++ dquote) dquote = true).
    { apply andb_true_iff. split.
      - unfold startswith, dquote. cbn. now rewrite ?startswith_empty.
      - rewrite <- !string_app_assoc. apply endswith_app. }
    rewrite Hq.
    assert (Hu : slice_1_m1 (dquote ++ "did=" ++ value ++ dquote) = "did=" ++ value).
    { unfold dquote.
      change (String (ascii_of_nat 34) EmptyString ++ "did=" ++ value
              ++ String (ascii_of_nat 34) EmptyString)
        with (String (ascii_of_nat 34)
                (("did=" ++ value) ++ String (ascii_of_nat 34) EmptyString)).
      apply slice_1_m1_wrapped. }
    rewrite Hu.
    replace (startswith ("did=" ++ value) "did=") with true
      by (unfold startswith; cbn; now rewrite startswith_empty).
    change (split_once "=" ("did=" ++ value)) with ["did"; value].
    reflexivity.
  - intros ans Hdid Hq. cbn [dns_first_did]. rewrite Hq. cbn [andb]. now rewrite Hdid.
Qed.

Lemma dns_first_did_reads_first_record_witness :
  dns_first_did ["v=spf1 -all"; "did=did:plc:xyz "; "did=did:plc:other"]
  = Ok (PStr "did:plc:xyz").
Proof.
  rewrite (proj2 (proj2 (dns_first_did_reads_first_record "" _)) "v=spf1 -all");
    [|reflexivity|reflexivity].
  apply (proj1 (dns_first_did_reads_first_record "did:plc:xyz " _)).
Defined.

(** ** Fetching the document of a web or registry DID *)

Section DocumentFetch.

Lemma replace_char_gone (a b : ascii) (s : string) :
  a <> b -> str_in (String a EmptyString) (replace_char a b s) = false.
Proof.
  intros Hab. induction s as [|c s IH]; [reflexivity|].
  cbn [replace_char]. rewrite str_in_char_cons, IH, orb_false_r.
  destruct (Ascii.eqb_spec c a) as [->|Hc].
  - apply Ascii.eqb_neq. congruence.
  - now apply Ascii.eqb_neq.
Qed.

End DocumentFetch.

(** X8. For a DID "did:web:" ++ suffix, [fetch_did_document] makes exactly
    one request, to https://<path>/.well-known/did.json with timeout 5,
    where <path> is the suffix with every ":" turned into "/" (so no ":" is
    left in it).  It returns the JSON body of a 200 response as it is,
    without looking for a "didDocument" wrapper, and [None] on any other
    status, an unparseable body or a transport error. *)
Theorem fetch_did_document_web (w : World) (suffix : string) (st : state) :
  let path := replace_char ":" "/" suffix in
  let url := "https://" ++ path ++ "/.well-known/did.json" in
  fetch_did_document w ("did:web:" ++ suffix) st
  = (Ok match requests_get w (trace st) url [] with
        | Ok r => if (status_code r =? 200)%nat
                  then match json r with Ok doc => doc | Raise _ => PNone end
                  else PNone
        | Raise _ => PNone
        end,
     extend st [EvHttpGet url [] 5])
  /\ str_in ":" path = false.
Proof.
  intros path url. split; [|apply replace_char_gone; discriminate].
  unfold fetch_did_document.
  replace (startswith ("did:web:" ++ suffix) "did:web:") with true
    by (unfold startswith; cbn; now rewrite ?startswith_empty).
  change (drop (String.length "did:web:") ("did:web:" ++ suffix)) with suffix.
  fold path. fold url.
  unfold try_except, bind, requests_get_, ret, lift.
  destruct (requests_get w (trace st) url []) as [r|e]; [|reflexivity].
  destruct (status_code r =? 200)%nat; [|reflexivity].
  now destruct (json r).
Qed.

(** X9. Every DID that starts with "did:plc" (with or without a ":" after
    it) and is not "did:web:"-prefixed is fetched from the PLC directory:
    exactly one request, to https://plc.directory/<did> with timeout 6; the
    JSON body of a 200 response is returned as it is, and [None] on any
    other status, an unparseable body or a transport error. *)
Theorem fetch_did_document_plc (w : World) (did : string) (st : state) :
  startswith did "did:web:" = false ->
  startswith did "did:plc" = true ->
  let url := "https://plc.directory/" ++ did in
  fetch_did_document w did st
  = (Ok match requests_get w (trace st) url [] with
        | Ok r => if (status_code r =? 200)%nat
                  then match json r with Ok doc => doc | Raise _ => PNone end
                  else PNone
        | Raise _ => PNone
        end,
     extend st [EvHttpGet url [] 6]).
Proof.
  intros Hweb Hplc url. unfold fetch_did_document.
  rewrite Hweb, Hplc, orb_true_r. fold url.
  unfold try_except, bind, requests_get_, ret, lift.
  destruct (requests_get w (trace st) url []) as [r|e]; [|reflexivity].
  destruct (status_code r =? 200)%nat; [|reflexivity].
  now destruct (json r).
Qed.

Lemma fetch_did_document_plc_witness :
  fetch_did_document (scenario_world "https://pds.example/") "did:plcx" (typing [])
  = (Ok PNone, extend (typing []) [EvHttpGet "https://plc.directory/did:plcx" [] 6]).
Proof.
  rewrite (fetch_did_document_plc (scenario_world "https://pds.example/") "did:plcx"
             (typing []) eq_refl eq_refl).
  reflexivity.
Defined.

(** ** More on the runs of the login flow *)

Section FlowRuns.

Variable w : World.

(** After the default login has failed, the flow is its second half. *)
Lemma login_flow_second_half (raw : string) (st st1 : state) :
  after_default_failure w raw st st1 ->
  exists pw,
    login_flow w raw st
    = login_via_pds w (identifier_for_login raw) (identifier_for_login raw) pw st1.
Proof.
  intros (line & rest & e & Hraw & Es & Hline & Hlogin & ->).
  exists (strip line).
  destruct (login_flow_cases w raw st)
    as [[Hempty _] | [(_ & Hnil & _) | (line' & rest' & _ & Es' & Hrun)]];
    [contradiction | congruence |].
  rewrite Es in Es'. injection Es' as <- <-. cbn zeta in Hrun.
  destruct Hrun as [[Hempty _] | [_ Hrun]]; [contradiction|].
  cbn [trace] in Hrun. rewrite Hlogin in Hrun. rewrite Hrun.
  unfold extend. cbn [stdin trace]. now rewrite <- app_assoc.
Qed.

Lemma did_prefixed_nonempty (s : string) :
  startswith s "did:" = true -> s <> EmptyString.
Proof. intros H ->. discriminate H. Qed.

Lemma identifier_of_did (raw : string) :
  startswith (strip raw) "did:" = true -> identifier_for_login raw = strip raw.
Proof.
  intros H. unfold identifier_for_login, assume_bsky_if_bare. now rewrite H.
Qed.

(** The second half of the flow on a DID: the document fetch, and after it
    at most a login. *)
Lemma login_via_pds_on_did (did id pw : string) (st1 : state) :
  startswith did "did:" = true ->
  exists v url timeout tail,
    fetch_did_document w did st1 = (Ok v, extend st1 [EvHttpGet url [] timeout])
    /\ snd (login_via_pds w did id pw st1)
       = extend st1 (EvHttpGet url [] timeout :: tail)
    /\ filter is_lookup tail = [].
Proof.
  intros Hdid.
  destruct (fetch_did_document_total w did st1) as (doc & url & t & Hf & _).
  exists doc, url, t.
  destruct (login_via_pds w did id pw st1) as [out st'] eqn:Erun. cbn [snd].
  unfold login_via_pds in Erun. rewrite Hdid in Erun.
  unfold bind at 1, ret at 1 in Erun.
  pose proof (did_prefixed_nonempty did Hdid) as Hne.
  apply String.eqb_neq in Hne. cbn [Py.truthy] in Erun. rewrite Hne in Erun.
  cbn [negb] in Erun. unfold bind at 1 in Erun. rewrite Hf in Erun.
  destruct (Py.truthy doc); cbn [negb] in Erun.
  2:{ injection Erun as _ <-. now exists []. }
  unfold bind at 1, lift in Erun.
  destruct (extract_pds_from_did_doc doc did) as [pds_host|e].
  2:{ injection Erun as _ <-. now exists []. }
  destruct (Py.truthy_opt pds_host); cbn [negb] in Erun.
  2:{ injection Erun as _ <-. now exists []. }
  unfold bind in Erun. rewrite try_login_run in Erun.
  exists [EvLogin (login_target pds_host) id pw].
  split; [exact Hf|]. split; [|reflexivity].
  match type of Erun with
  | context [client_login w ?tr ?b id pw] =>
      destruct (client_login w tr b id pw); cbn [fst] in Erun;
      injection Erun as _ <-; now rewrite extend_extend
  end.
Qed.

Lemma identifier_nonempty (raw : string) : identifier_for_login raw <> EmptyString.
Proof.
  unfold identifier_for_login. rewrite assume_bsky_if_bare_eq.
  unfold maybe_assume_bsky.
  destruct (startswith (strip raw) "did:") eqn:Hd;
    [now apply did_prefixed_nonempty|].
  destruct (str_in "." (strip raw)) eqn:Hp; cbn [negb].
  - intros E. now rewrite E in Hp.
  - now destruct (strip raw).
Qed.

End FlowRuns.

(** X10. When the input is a DID, the handle resolver is never used: the
    run makes no DNS query and no request to the well-known path or the
    public resolver; its lookups are at most the one request of
    [fetch_did_document] for that DID. *)
Theorem login_flow_did_skips_resolver (w : World) (raw : string) (st : state) :
  startswith (strip raw) "did:" = true ->
  exists delta,
    trace (snd (login_flow w raw st)) = (trace st ++ delta)%list
    /\ (filter is_lookup delta = []
        \/ exists st1 doc,
             fetch_did_document w (strip raw) st1
             = (Ok doc, extend st1 (filter is_lookup delta))).
Proof.
  intros Hdid. pose proof (identifier_of_did raw Hdid) as Hid.
  destruct (login_flow_cases w raw st)
    as [[_ Hrun] | [(_ & _ & Hrun) | (line & rest & _ & Es & Hrun)]].
  - rewrite Hrun. exists []. split; [now rewrite app_nil_r | now left].
  - rewrite Hrun. exists [EvGetpass password_prompt]. split; [reflexivity | now left].
  - cbn zeta in Hrun. rewrite Hid in Hrun.
    destruct Hrun as [[_ Hrun] | [_ Hrun]].
    + rewrite Hrun. exists [EvGetpass password_prompt].
      split; [reflexivity | now left].
    + match type of Hrun with
      | context [client_login w ?tr None ?id ?pw] =>
          destruct (client_login w tr None id pw) as [lo|e]
      end.
      * rewrite Hrun. exists [EvGetpass password_prompt; EvLogin None (strip raw) (strip line)].
        split; [cbn; now rewrite <- app_assoc | now left].
      * rewrite Hrun.
        match goal with
        | |- context [login_via_pds w _ _ ?pw ?st1] =>
            destruct (login_via_pds_on_did w (strip raw) (strip raw) pw st1 Hdid)
              as (doc & url & t & tail & Hf & Hs & Htail)
        end.
        rewrite Hs.
        exists ([EvGetpass password_prompt; EvLogin None (strip raw) (strip line)]
                ++ EvHttpGet url [] t :: tail)%list.
        split; [cbn; now rewrite <- !app_assoc|].
        right. rewrite filter_app. cbn [filter is_lookup app]. rewrite Htail.
        eexists _, doc. exact Hf.
Qed.

Lemma login_flow_did_skips_resolver_witness :
  exists delta,
    trace (snd (login_flow (scenario_world "https://pds.example/") "did:plc:xyz"
                  (typing ["pw"])))
    = (trace (typing ["pw"]) ++ delta)%list
    /\ filter is_lookup delta = [EvHttpGet "https://plc.directory/did:plc:xyz" [] 6].
Proof.
  destruct (login_flow_did_skips_resolver (scenario_world "https://pds.example/")
              "did:plc:xyz" (typing ["pw"]) eq_refl) as (delta & Htr & _).
  eexists. split; reflexivity.
Defined.

(** X11. When the default service accepts the login, the flow ends there:
    the password prompt and that one login are its only events, no DNS
    query or HTTP request is made, and the client returned is the default
    one. *)
Theorem login_flow_default_success (w : World) (raw line : string)
    (rest : list string) (tr : list event) (lo : login_ok) :
  strip raw <> EmptyString -> strip line <> EmptyString ->
  client_login w (tr ++ [EvGetpass password_prompt]) None
    (identifier_for_login raw) (strip line) = Ok lo ->
  exists did,
    login_flow w raw {| stdin := line :: rest; trace := tr |}
    = (Ok (Some ({| base_url := None; me_did := lo_me_did lo |}, did)),
       {| stdin := rest;
          trace := tr ++ [EvGetpass password_prompt;
                          EvLogin None (identifier_for_login raw) (strip line)] |}).
Proof.
  intros Hraw Hline Hlogin.
  destruct (login_flow_cases w raw {| stdin := line :: rest; trace := tr |})
    as [[Hempty _] | [(_ & Hnil & _) | (line' & rest' & _ & Es' & Hrun)]];
    [contradiction | discriminate Hnil |].
  cbn [stdin] in Es'. injection Es' as <- <-. cbn zeta in Hrun.
  destruct Hrun as [[Hempty _] | [_ Hrun]]; [contradiction|].
  cbn [trace] in Hrun. rewrite Hlogin in Hrun. rewrite Hrun.
  eexists. unfold extend. cbn [stdin trace]. now rewrite <- app_assoc.
Qed.

Lemma login_flow_default_success_witness :
  exists did,
    login_flow accepting_world "alice" (typing [" secret "; "y"])
    = (Ok (Some ({| base_url := None; me_did := PStr "did:plc:alice" |}, did)),
       {| stdin := ["y"];
          trace := [EvGetpass password_prompt;
                    EvLogin None "alice.bsky.social" "secret"] |}).
Proof.
  destruct (login_flow_default_success accepting_world "alice" " secret " ["y"] []
              {| lo_me_did := PStr "did:plc:alice";
                 lo_profile := PDict [("did", PStr "did:plc:alice")] |})
    as [did Hrun]; [discriminate | discriminate | reflexivity |].
  now exists did.
Defined.

(** X12. After a failed default login the flow gives up quietly at the
    first missing piece: when the cascade finds no DID it returns [None]
    in the state the cascade left, with no document fetched; when the
    document fetch gives nothing it returns [None] in the state the fetch
    left.  No second login is attempted in either case. *)
Theorem login_flow_gives_up (w : World) (raw : string) (st st1 : state) :
  after_default_failure w raw st st1 ->
  let id := identifier_for_login raw in
  (forall v st2,
      startswith id "did:" = false ->
      resolve_handle_to_did w id st1 = (Ok v, st2) -> Py.truthy v = false ->
      login_flow w raw st = (Ok None, st2))
  /\ (forall d st2 doc st3,
        resolves_did w id st1 d st2 -> d <> EmptyString ->
        fetch_did_document w d st2 = (Ok doc, st3) -> Py.truthy doc = false ->
        login_flow w raw st = (Ok None, st3)).
Proof.
  intros Hfail id. destruct (login_flow_second_half w raw st st1 Hfail) as [pw Hrun].
  fold id in Hrun. split.
  - intros v st2 Hdid Hres Tv. rewrite Hrun. unfold login_via_pds.
    rewrite Hdid. unfold bind. now rewrite Hres, Tv.
  - intros d st2 doc st3 Hres Hd Hf Tdoc. rewrite Hrun. unfold login_via_pds.
    assert (H1 : (if startswith id "did:" then ret (PStr id)
                  else resolve_handle_to_did w id) st1 = (Ok (PStr d), st2)).
    { unfold resolves_did in Hres. destruct (startswith id "did:"); [|exact Hres].
      destruct Hres as [-> ->]. reflexivity. }
    unfold bind at 1. rewrite H1.
    apply String.eqb_neq in Hd. cbn [Py.truthy]. rewrite Hd. cbn [negb].
    unfold bind. now rewrite Hf, Tdoc.
Qed.

Lemma login_flow_gives_up_witness :
  exists st2,
    login_flow offline_world "bob.example.com" (typing ["pw"]) = (Ok None, st2)
    /\ logins (trace st2) = [EvLogin None "bob.example.com" "pw"].
Proof.
  pose proof (login_flow_gives_up offline_world "bob.example.com" (typing ["pw"])
                {| stdin := [];
                   trace := [EvGetpass password_prompt;
                             EvLogin None "bob.example.com" "pw"] |}) as H.
  destruct H as [H _].
  - exists "pw", [], (OtherError "connection refused").
    repeat split; discriminate.
  - eexists. split; [apply (H PNone); reflexivity | reflexivity].
Defined.

(** X13. A DID that is truthy but not a string (the public resolver may
    hand back any JSON value under "did") is not caught: after a failed
    default login, [login_flow] raises [AttributeError] when the cascade
    returns such a value, in the state the cascade left. *)
Theorem login_flow_raises_on_non_string_did (w : World) (raw : string)
    (st st1 st2 : state) (v : pyval) :
  after_default_failure w raw st st1 ->
  startswith (identifier_for_login raw) "did:" = false ->
  resolve_handle_to_did w (identifier_for_login raw) st1 = (Ok v, st2) ->
  Py.truthy v = true ->
  (forall s, v <> PStr s) ->
  login_flow w raw st = (Raise AttributeError, st2).
Proof.
  intros Hfail Hdid Hres Tv Hns.
  destruct (login_flow_second_half w raw st st1 Hfail) as [pw ->].
  unfold login_via_pds. rewrite Hdid. unfold bind. rewrite Hres, Tv. cbn [negb].
  destruct v; try reflexivity. now elim (Hns s).
Qed.

Lemma login_flow_raises_on_non_string_did_witness :
  exists st2,
    login_flow (replying_world (PDict [("did", PInt 5)]) PNone) "bob.example.com"
      (typing ["pw"]) = (Raise AttributeError, st2)
    /\ program (replying_world (PDict [("did", PInt 5)]) PNone) 2
         (typing ["bob.example.com"; "pw"])
       = Some (1, {| stdin := stdin st2;
                     trace := EvInput handle_prompt :: trace st2 |}).
Proof.
  eexists. split.
  - apply (login_flow_raises_on_non_string_did
             (replying_world (PDict [("did", PInt 5)]) PNone)
             "bob.example.com" (typing ["pw"])
             {| stdin := [];
                trace := [EvGetpass password_prompt;
                          EvLogin None "bob.example.com" "pw"] |}
             _ (PInt 5)).
    + exists "pw", [], (OtherError "401 Unauthorized"). repeat split; discriminate.
    + reflexivity.
    + reflexivity.
    + reflexivity.
    + discriminate.
  - reflexivity.
Defined.

(** X14. A document that is truthy but not a dict (a JSON list, string or
    number served with status 200) is not caught either: after a failed
    default login and a resolved DID, [login_flow] raises [AttributeError]
    in the state the document fetch left. *)
Theorem login_flow_raises_on_non_dict_document (w : World) (raw d : string)
    (st st1 st2 st3 : state) (doc : pyval) :
  after_default_failure w raw st st1 ->
  resolves_did w (identifier_for_login raw) st1 d st2 ->
  d <> EmptyString ->
  fetch_did_document w d st2 = (Ok doc, st3) ->
  Py.truthy doc = true ->
  (forall x, doc <> PDict x) ->
  login_flow w raw st = (Raise AttributeError, st3).
Proof.
  intros Hfail Hres Hd Hf Tdoc Hnd.
  destruct (login_flow_second_half w raw st st1 Hfail) as [pw ->].
  unfold login_via_pds.
  assert (H1 : (if startswith (identifier_for_login raw) "did:"
                then ret (PStr (identifier_for_login raw))
                else resolve_handle_to_did w (identifier_for_login raw)) st1
               = (Ok (PStr d), st2)).
  { unfold resolves_did in Hres.
    destruct (startswith (identifier_for_login raw) "did:"); [|exact Hres].
    destruct Hres as [-> ->]. reflexivity. }
  unfold bind at 1. rewrite H1.
  apply String.eqb_neq in Hd. cbn [Py.truthy]. rewrite Hd. cbn [negb].
  unfold bind at 1. rewrite Hf, Tdoc. cbn [negb].
  unfold bind, lift.
  destruct doc; try reflexivity. now elim (Hnd d0).
Qed.

Lemma login_flow_raises_on_non_dict_document_witness :
  exists st3,
    login_flow (replying_world PNone (PList [PInt 1])) "did:plc:xyz" (typing ["pw"])
    = (Raise AttributeError, st3).
Proof.
  pose (st1 := {| stdin := [];
                  trace := [EvGetpass password_prompt;
                            EvLogin None "did:plc:xyz" "pw"] |}).
  exists (extend st1 [EvHttpGet "https://plc.directory/did:plc:xyz" [] 6]).
  apply (login_flow_raises_on_non_dict_document
           (replying_world PNone (PList [PInt 1])) "did:plc:xyz" "did:plc:xyz"
           (typing ["pw"]) st1 st1 _ (PList [PInt 1])).
  - exists "pw", [], (OtherError "401 Unauthorized"). repeat split; discriminate.
  - split; reflexivity.
  - discriminate.
  - reflexivity.
  - reflexivity.
  - discriminate.
Defined.

(** X21. The DID a successful [login_flow] returns is never [None] and
    never empty: it is truthy, whichever attempt succeeded and whatever the
    client reported. *)
Theorem login_flow_session_did_truthy (w : World) (raw : string) (st st' : state)
    (client : Client) (user_did : pyval) :
  login_flow w raw st = (Ok (Some (client, user_did)), st') ->
  Py.truthy user_did = true.
Proof.
  intros Hrun.
  pose proof (identifier_nonempty raw) as Hid. apply String.eqb_neq in Hid.
  destruct (login_flow_cases w raw st)
    as [[_ Hc] | [(_ & _ & Hc) | (line & rest & _ & Es & Hc)]];
    try (rewrite Hrun in Hc; discriminate Hc).
  cbn zeta in Hc.
  destruct Hc as [[_ Hc] | [_ Hc]]; [rewrite Hrun in Hc; discriminate Hc|].
  rewrite Hrun in Hc.
  match type of Hc with
  | context [client_login w ?tr None ?id ?pw] =>
      destruct (client_login w tr None id pw) as [lo|e]
  end.
  - injection Hc as _ -> _.
    destruct (Py.truthy (lo_me_did lo)) eqn:T1; [exact T1|].
    destruct (Py.truthy (profile_did (lo_profile lo))) eqn:T2; [exact T2|].
    cbn [Py.truthy]. now rewrite Hid.
  - match type of Hc with
    | _ = login_via_pds w ?a ?b ?pw ?st1 =>
        destruct (login_via_pds_cases w a b pw st1)
          as [(delta & _ & _ & [Hf | [e' Hf]])
             | (d & pds & st3 & delta & Hdisc & _ & _ & Hpds)];
        try (rewrite <- Hc in Hf; discriminate Hf)
    end.
    rewrite Hpds in Hc.
    destruct (client_login w (trace st3) _ _ _) as [lo|e'']; [|discriminate Hc].
    injection Hc as _ -> _. unfold Py.or_.
    destruct (Py.truthy (lo_me_did lo)) eqn:T1; [exact T1|].
    destruct Hdisc as (st2 & doc & _ & Hd & _).
    apply String.eqb_neq in Hd. cbn [Py.truthy]. now rewrite Hd.
Qed.

Lemma login_flow_session_did_truthy_witness :
  Py.truthy (PStr "did:plc:xyz") = true.
Proof.
  apply (login_flow_session_did_truthy (scenario_world "https://pds.example/")
           "bob.example.com" (typing ["pw"])
           (snd (login_flow (scenario_world "https://pds.example/") "bob.example.com"
                   (typing ["pw"])))
           {| base_url := Some "https://pds.example/xrpc"; me_did := PNone |}).
  reflexivity.
Defined.

(** ** Login attempts and the follow record *)

(** X16. [try_login] never raises and makes exactly one login attempt.
    Without a base URL, or with an empty one, the attempt goes to the
    default client.  A failed attempt gives no client and the dict
    {"error": <text of the exception>}; a successful one gives a client
    bound to the URL used. *)
Theorem try_login_outcome (w : World) (base : option string) (id pw : string)
    (st : state) :
  let target := login_target base in
  (base = None \/ base = Some EmptyString -> target = None)
  /\ (forall e,
        client_login w (trace st) target id pw = Raise e ->
        try_login w base id pw st
        = (Ok (None, PDict [("error", PStr (exn_str e))]),
           extend st [EvLogin target id pw]))
  /\ (forall lo,
        client_login w (trace st) target id pw = Ok lo ->
        try_login w base id pw st
        = (Ok (Some {| base_url := target; me_did := lo_me_did lo |}, lo_profile lo),
           extend st [EvLogin target id pw])).
Proof.
  intros target. split; [|split].
  - intros [-> | ->]; reflexivity.
  - intros e He. rewrite try_login_run. fold target. now rewrite He.
  - intros lo Hlo. rewrite try_login_run. fold target. now rewrite Hlo.
Qed.

Lemma try_login_outcome_witness :
  try_login offline_world (Some EmptyString) "bob.example.com" "pw" (typing [])
  = (Ok (None, PDict [("error", PStr "connection refused")]),
     extend (typing []) [EvLogin None "bob.example.com" "pw"]).
Proof.
  apply (proj1 (proj2 (try_login_outcome offline_world (Some EmptyString)
                         "bob.example.com" "pw" (typing [])))
           (OtherError "connection refused")).
  reflexivity.
Defined.

(** X17. [follow_self] never raises and makes exactly one [create_record]
    call, on the client it is given, with a payload whose "repo" and whose
    record "subject" are both the given DID, in the collection
    "app.bsky.graph.follow"; it returns [True] when the call returns and
    [False] when the call raises. *)
Theorem follow_self_outcome (w : World) (client : Client) (user_did : pyval)
    (st : state) :
  let payload := follow_payload user_did (now_iso w (trace st)) in
  follow_self w client user_did st
  = (Ok match create_record w (trace st) (base_url client) payload with
        | Ok _ => true
        | Raise _ => false
        end,
     extend st [EvCreateRecord (base_url client) payload])
  /\ Py.get payload "repo" = Ok user_did
  /\ rbind (Py.get payload "record") (fun r => Py.get r "subject") = Ok user_did
  /\ Py.get payload "collection" = Ok (PStr "app.bsky.graph.follow").
Proof.
  intros payload. split; [|repeat split].
  unfold follow_self, try_except, bind, sdk_create_record, ret.
  fold (follow_payload user_did (now_iso w (trace st))). fold payload.
  now destruct (create_record w (trace st) (base_url client) payload).
Qed.

(** ** The yes/no question *)

Section Confirm.

Lemma repeat_cons_app {A} (x : A) (n : nat) :
  (x :: repeat x n = repeat x n ++ [x])%list.
Proof. induction n as [|n IH]; cbn; [reflexivity | now rewrite <- IH]. Qed.

Lemma confirm_loop_skips (prompt : string) (bad rest : list string) (tr : list event) :
  forallb (fun l => negb (answer_yes l || answer_no l)) bad = true ->
  confirm_loop prompt (bad ++ rest) tr
  = confirm_loop prompt rest (tr ++ repeat (confirm_prompt prompt) (length bad)).
Proof.
  revert tr. induction bad as [|l bad IH]; intros tr Hbad.
  - cbn. now rewrite app_nil_r.
  - cbn [forallb] in Hbad. apply andb_true_iff in Hbad as [Hl Hbad].
    apply negb_true_iff, orb_false_iff in Hl as [Hy Hn].
    unfold answer_yes in Hy. unfold answer_no in Hn.
    cbn [app confirm_loop]. rewrite Hy, Hn.
    rewrite (IH _ Hbad). fold (confirm_prompt prompt).
    now rewrite <- app_assoc.
Qed.

End Confirm.

(** X18. [confirm] asks again after every line that is neither a yes ("y",
    "yes") nor a no ("n", "no", empty), compared trimmed and in lower
    case: with such lines first and then a yes or a no, it shows the prompt
    once per line read, returns [True] for the yes and [False] for the no,
    and leaves the later lines unread; when the lines run out before an
    answer it raises [EOFError] after one more prompt. *)
Theorem confirm_asks_until_answered (prompt : string) (bad : list string)
    (tr : list event) :
  forallb (fun l => negb (answer_yes l || answer_no l)) bad = true ->
  (forall line rest,
      answer_yes line || answer_no line = true ->
      confirm prompt {| stdin := bad ++ line :: rest; trace := tr |}
      = (Ok (answer_yes line),
         {| stdin := rest;
            trace := tr ++ repeat (confirm_prompt prompt) (S (length bad)) |}))
  /\ confirm prompt {| stdin := bad; trace := tr |}
     = (Raise EOFError,
        {| stdin := [];
           trace := tr ++ repeat (confirm_prompt prompt) (S (length bad)) |}).
Proof.
  intros Hbad. split.
  - intros line rest Hans. unfold confirm. cbn [stdin trace].
    rewrite (confirm_loop_skips prompt bad (line :: rest) tr Hbad).
    cbn [confirm_loop]. fold (confirm_prompt prompt).
    rewrite <- app_assoc, <- repeat_cons_app.
    fold (answer_yes line).
    destruct (answer_yes line) eqn:Hy; [reflexivity|].
    cbn [orb] in Hans. unfold answer_no in Hans. now rewrite Hans.
  - unfold confirm. cbn [stdin trace].
    rewrite <- (app_nil_r bad) at 1.
    rewrite (confirm_loop_skips prompt bad [] tr Hbad).
    cbn [confirm_loop]. fold (confirm_prompt prompt).
    now rewrite <- app_assoc, <- repeat_cons_app.
Qed.

Lemma confirm_asks_until_answered_witness :
  confirm "Try another account?" (typing ["maybe"; "?"; " YES "; "n"])
  = (Ok true,
     {| stdin := ["n"];
        trace := repeat (confirm_prompt "Try another account?") 3 |}).
Proof.
  apply (proj1 (confirm_asks_until_answered "Try another account?" ["maybe"; "?"] []
                  eq_refl) " YES " ["n"]).
  reflexivity.
Defined.

(** ** The rounds of the interactive loop *)

Section Rounds.

Variable w : World.

Lemma follow_self_run (client : Client) (user_did : pyval) (st : state) :
  exists ok,
    follow_self w client user_did st
    = (Ok ok, extend st [EvCreateRecord (base_url client)
                           (follow_payload user_did (now_iso w (trace st)))]).
Proof.
  unfold follow_self, try_except, bind, sdk_create_record, ret.
  fold (follow_payload user_did (now_iso w (trace st))).
  destruct (create_record w (trace st) (base_url client) _); now eexists.
Qed.

(** Logging out never raises, whatever the SDK call does. *)
Lemma logout_quietly_run (client : Client) (st : state) :
  logout_quietly w client st = (Ok tt, extend st [EvLogout (base_url client)]).
Proof.
  unfold logout_quietly, try_except, sdk_logout, ret.
  now destruct (client_logout w (trace st) (base_url client)) as [[]|].
Qed.

End Rounds.

(** X19. In a round of [main] where the login succeeded and the question
    "Are you sure you want to proceed" got an answer: on a yes the round
    writes the follow record for the session DID and then logs out, on a no
    it only logs out, and in both cases it then asks whether to go on.  So
    no record is written without a yes, and the session is always logged
    out before the next question, whether or not the calls succeed. *)
Theorem main_round_after_login (w : World) (h : string) (rest : list string)
    (tr : list event) (client : Client) (did : pyval) (st1 st2 : state) (go : bool) :
  strip h <> EmptyString ->
  login_flow w (strip h) {| stdin := rest; trace := tr ++ [EvInput handle_prompt] |}
  = (Ok (Some (client, did)), st1) ->
  confirm "Are you sure you want to proceed" st1 = (Ok go, st2) ->
  main_round w {| stdin := h :: rest; trace := tr |}
  = if go then
      (again <- confirm "Follow another account?" ;;
       ret (if again then Continue else Break))
        (extend st2 [EvCreateRecord (base_url client)
                       (follow_payload did (now_iso w (trace st2)));
                     EvLogout (base_url client)])
    else
      (again <- confirm "Try another account?" ;;
       ret (if again then Continue else Break))
        (extend st2 [EvLogout (base_url client)]).
Proof.
  intros Hh Hlogin Hconfirm.
  unfold main_round. unfold bind at 1. unfold input at 1. cbn [stdin trace].
  apply String.eqb_neq in Hh. rewrite Hh.
  unfold bind at 1. rewrite Hlogin.
  unfold bind at 1. rewrite Hconfirm.
  destruct go; cbn [negb].
  - destruct (follow_self_run w client did st2) as [ok Hfollow].
    unfold bind at 1. rewrite Hfollow.
    unfold bind at 1. rewrite logout_quietly_run. now rewrite extend_extend.
  - unfold bind at 1. now rewrite logout_quietly_run.
Qed.

Lemma main_round_after_login_witness :
  main_round accepting_world (typing ["alice"; "secret"; "no"; "n"])
  = (Ok Break,
     {| stdin := [];
        trace := [EvInput handle_prompt; EvGetpass password_prompt;
                  EvLogin None "alice.bsky.social" "secret";
                  confirm_prompt "Are you sure you want to proceed";
                  EvLogout None;
                  confirm_prompt "Try another account?"] |}).
Proof.
  unfold typing.
  rewrite (main_round_after_login accepting_world "alice" ["secret"; "no"; "n"] []
             {| base_url := None; me_did := PStr "did:plc:alice" |}
             (PStr "did:plc:alice")
             {| stdin := ["no"; "n"];
                trace := [EvInput handle_prompt; EvGetpass password_prompt;
                          EvLogin None "alice.bsky.social" "secret"] |}
             {| stdin := ["n"];
                trace := [EvInput handle_prompt; EvGetpass password_prompt;
                          EvLogin None "alice.bsky.social" "secret";
                          confirm_prompt "Are you sure you want to proceed"] |}
             false);
    [reflexivity | discriminate | reflexivity | reflexivity].
Defined.

Section Fuel.

Variable w : World.

(** More rounds allowed do not change a run that ended. *)
Lemma main_loop_more_fuel (fuel more : nat) (st : state) (out : result unit * state) :
  main_loop w fuel st = Some out -> main_loop w (fuel + more) st = Some out.
Proof.
  revert st. induction fuel as [|fuel IH]; intros st H; [discriminate H|].
  cbn [main_loop Nat.add] in *.
  destruct (main_round w st) as [[[|]|e] st']; try exact H.
  now apply IH.
Qed.

End Fuel.

(** X20. The program always comes to an end: with more rounds allowed than
    there are lines still to be typed, the loop of [main] stops with exit
    status 0 (the user left the loop) or 1 (an exception reached the top
    level, such as the end of input), and allowing more rounds changes
    nothing. *)
Theorem program_terminates (w : World) (fuel : nat) (st : state) :
  length (stdin st) < fuel ->
  exists code st',
    program w fuel st = Some (code, st')
    /\ (code = 0 \/ code = 1)
    /\ forall more, program w (fuel + more) st = Some (code, st').
Proof.
  intros Hlen. pose proof (main_loop_total w fuel st Hlen) as Htot.
  unfold program.
  destruct (main_loop w fuel st) as [[[u|e] st']|] eqn:E; [| |now elim Htot].
  - exists 0, st'. split; [reflexivity|]. split; [now left|].
    intros more. now rewrite (main_loop_more_fuel w fuel more st _ E).
  - exists 1, st'. split; [reflexivity|]. split; [now right|].
    intros more. now rewrite (main_loop_more_fuel w fuel more st _ E).
Qed.

Lemma program_terminates_witness :
  exists st', program offline_world 1 (typing []) = Some (1, st').
Proof.
  destruct (program_terminates offline_world 1 (typing [])) as (code & st' & H & _).
  - cbn. lia.
  - eexists. reflexivity.
Defined.

(** X22. Whatever the document, well-formed or not, an endpoint that
    [extract_pds_from_did_doc] returns never ends with a slash. *)
Theorem extract_pds_never_trailing_slash (doc : pyval) (did endpoint : string) :
  extract_pds_from_did_doc doc did = Ok (Some endpoint) ->
  endswith endpoint "/" = false.
Proof. apply extract_pds_no_slash. Qed.

Lemma extract_pds_never_trailing_slash_witness :
  endswith "http://pds.example" "/" = false.
Proof.
  apply (extract_pds_never_trailing_slash
           (PDict [("services",
                    PList [PDict [("id", PStr "#atproto_pds");
                                  ("serviceEndpointURL", PStr "http://pds.example//")];
                           PInt 7])])
           "did:plc:xyz").
  reflexivity.
Defined.

(** ** Descriptors after the match *)

Section EarlyReturn.

(** One step of the first loop on a well-formed descriptor. *)
Lemma scan_by_id_cons (did : string) (s : pyval) (rest : list pyval) :
  wf_descriptor s = true ->
  scan_by_id (s :: rest) did
  = match pds_endpoint did s with
    | Some e => Ok (Some (rstrip_slash e))
    | None => scan_by_id rest did
    end.
Proof.
  intros Hs. destruct s; try discriminate Hs.
  cbn [scan_by_id]. unfold pds_endpoint, id_is_pds, endpoint_string.
  unfold wf_descriptor in Hs.
  destruct (dict_get d "id" (PStr EmptyString)) eqn:Eid; try discriminate Hs.
  rewrite sid_matches_suffix. cbn [rbind].
  pose proof (sid_matches_suffix s did) as Hm. unfold sid_matches in Hm.
  injection Hm as Hm. rewrite Hm.
  destruct (endswith s "#atproto_pds"); [|reflexivity].
  rewrite <- first_loop_endpoint.
  destruct (Py.or_ _ (dict_get d "serviceEndpoint" PNone)); try reflexivity.
  now destruct (negb (s0 =? EmptyString)).
Qed.

Lemma pds_endpoint_wf (did : string) (s : pyval) (e : string) :
  pds_endpoint did s = Some e -> wf_descriptor s = true.
Proof.
  unfold pds_endpoint, id_is_pds, wf_descriptor.
  destruct s; try discriminate.
  now destruct (dict_get d "id" (PStr EmptyString)).
Qed.

Lemma scan_by_id_stops (did : string) (l1 : list pyval) (s : pyval)
    (l2 : list pyval) (e : string) :
  forallb wf_descriptor l1 = true ->
  (forall x, In x l1 -> pds_endpoint did x = None) ->
  pds_endpoint did s = Some e ->
  scan_by_id (l1 ++ s :: l2) did = Ok (Some (rstrip_slash e)).
Proof.
  intros Hwf Hnone Hs. induction l1 as [|x l1 IH]; cbn [app].
  - now rewrite (scan_by_id_cons did s l2 (pds_endpoint_wf did s e Hs)), Hs.
  - cbn [forallb] in Hwf. apply andb_true_iff in Hwf as [Hx Hwf].
    rewrite (scan_by_id_cons did x _ Hx), (Hnone x (or_introl eq_refl)).
    apply IH; [exact Hwf|]. intros y Hy. apply Hnone. now right.
Qed.

End EarlyReturn.

(** X23. The first loop returns at the first descriptor that matches by id
    and has an endpoint: what comes after it in the service list is never
    looked at, so the result is the same, and no exception is raised,
    whatever those later entries are (malformed ones included). *)
Theorem extract_pds_stops_at_first_match (d : list (string * pyval)) (did : string)
    (l1 : list pyval) (s : pyval) (l2 : list pyval) (e : string) :
  service_list (PDict d) = (l1 ++ s :: l2)%list ->
  forallb wf_descriptor l1 = true ->
  (forall x, In x l1 -> pds_endpoint did x = None) ->
  pds_endpoint did s = Some e ->
  extract_pds_from_did_doc (PDict d) did = Ok (Some (rstrip_slash e)).
Proof.
  intros Hsvc Hwf Hnone Hs.
  unfold service_list in Hsvc. unfold extract_pds_from_did_doc.
  unfold Py.get, Py.get_default. fold (dict_get d "service" PNone).
  fold (dict_get d "services" PNone). cbn [rbind].
  set (s1 := dict_get d "service" PNone) in *.
  set (s2 := dict_get d "services" PNone) in *.
  assert (Hor : (if Py.truthy s1 then Ok s1 else Ok (Py.or_ s2 (PList [])))
                = Ok (Py.or_ (Py.or_ s1 s2) (PList []))).
  { unfold Py.or_. destruct (Py.truthy s1) eqn:T1; [now rewrite T1 | reflexivity]. }
  rewrite Hor. cbn [rbind].
  destruct (Py.or_ (Py.or_ s1 s2) (PList [])) as [| | | | |l|];
    try (destruct l1; discriminate Hsvc).
  subst l.
  assert (Ht : Py.truthy (PList (l1 ++ s :: l2)) = true) by now destruct l1.
  rewrite Ht. cbn [negb Py.iter rbind].
  now rewrite (scan_by_id_stops did l1 s l2 e Hwf Hnone Hs).
Qed.

Lemma extract_pds_stops_at_first_match_witness :
  extract_pds_from_did_doc
    (PDict [("service",
             PList [PDict [("id", PStr "#other");
                           ("serviceEndpoint", PStr "https://other.example")];
                    PDict [("id", PStr "did:plc:xyz#atproto_pds");
                           ("serviceEndpoint", PStr "https://pds.example/")];
                    PInt 7; PNone])])
    "did:plc:xyz"
  = Ok (Some "https://pds.example").
Proof.
  apply (extract_pds_stops_at_first_match _ "did:plc:xyz"
           [PDict [("id", PStr "#other");
                   ("serviceEndpoint", PStr "https://other.example")]]
           (PDict [("id", PStr "did:plc:xyz#atproto_pds");
                   ("serviceEndpoint", PStr "https://pds.example/")])
           [PInt 7; PNone] "https://pds.example/").
  - reflexivity.
  - reflexivity.
  - intros x [<-|[]]. reflexivity.
  - reflexivity.
Defined.

(** X24. In a round of [main] where the login failed, the question "Try
    another handle?" is asked once and not checked: "y" or "yes" (trimmed,
    any case) starts another round, and every other line, an unclear one
    included, ends the loop.  Nothing is written and nothing is logged out
    in such a round. *)
Theorem main_round_after_failed_login (w : World) (h : string) (rest : list string)
    (tr : list event) (st1 : state) (answer : string) (rest1 : list string) :
  strip h <> EmptyString ->
  login_flow w (strip h) {| stdin := rest; trace := tr ++ [EvInput handle_prompt] |}
  = (Ok None, st1) ->
  stdin st1 = answer :: rest1 ->
  main_round w {| stdin := h :: rest; trace := tr |}
  = (Ok (if answer_yes answer then Continue else Break),
     {| stdin := rest1; trace := trace st1 ++ [EvInput try_another_prompt] |}).
Proof.
  intros Hh Hlogin Hin.
  unfold main_round. unfold bind at 1. unfold input at 1. cbn [stdin trace].
  apply String.eqb_neq in Hh. rewrite Hh.
  unfold bind at 1. rewrite Hlogin.
  unfold bind, input, ret. rewrite Hin. fold (answer_yes answer).
  now destruct (answer_yes answer).
Qed.

Lemma main_round_after_failed_login_witness :
  main_round offline_world (typing ["bob.example.com"; "pw"; "maybe"; "y"])
  = (Ok Break,
     {| stdin := ["y"];
        trace := [EvInput handle_prompt; EvGetpass password_prompt;
                  EvLogin None "bob.example.com" "pw";
                  dns_request "bob.example.com"; well_known_request "example.com";
                  public_request "bob.example.com";
                  EvInput try_another_prompt] |}).
Proof.
  unfold typing.
  rewrite (main_round_after_failed_login offline_world "bob.example.com"
             ["pw"; "maybe"; "y"] []
             {| stdin := ["maybe"; "y"];
                trace := [EvInput handle_prompt; EvGetpass password_prompt;
                          EvLogin None "bob.example.com" "pw";
                          dns_request "bob.example.com";
                          well_known_request "example.com";
                          public_request "bob.example.com"] |}
             "maybe" ["y"]);
    [reflexivity | discriminate | reflexivity | reflexivity].
Defined.
